(** * E-commerce dashboard metrics (lesson7_files/app.py)

    A shallow embedding of the KPI computations of [app.py]: the two
    scalar helpers [format_currency] and [calculate_trend_percentage], and
    the pandas expressions of [main] that compute revenue, order count,
    average order value, the monthly series, the category ranking, the
    satisfaction-by-delivery-bucket table and the average delivery time.

    Numbers.  The program computes with Python and numpy floats.  A finite
    value is modelled by an exact rational ([Fin q], results kept in lowest
    terms) and arithmetic is exact: the rounding of a sum, difference,
    product or quotient to the nearest binary float is not modelled, nor
    are overflow and the infinities.  [NaN] is kept as a value of its own,
    because pandas uses it as the null marker of a numeric column, [mean]
    of no values returns it, and the program passes such a mean on to
    [calculate_trend_percentage].  One place prints a digit that depends
    on the binary rounding of a quotient, the M branch of
    [format_currency]; there the quotient is rounded to the nearest double
    ([binary64_round]).

    Errors.  Python's true division raises [ZeroDivisionError] on a zero
    divisor (numpy's only warns); fallible code returns a [result], and a
    function shown never to raise here does not raise under numpy either.

    pandas.  [sum], [mean], [nunique], [groupby], [sort_values] and [head]
    are modelled by what they return on a column: nulls skipped, group keys
    sorted and without nulls, one entry per key. *)

From Stdlib Require Import ZArith QArith Qround Qabs Qpower List String Ascii Bool Lia Lqa.
From Stdlib Require Import DecimalString Permutation Sorted.
From Corelib Require Import PrimFloat SpecFloat FloatOps.
Import ListNotations.

Local Open Scope Q_scope.

(** ** Python numbers *)

Inductive number : Type :=
| Fin (q : Q)
| NaN.

Definition num_of_Z (z : Z) : number := Fin (inject_Z z).

Definition num_sub (a b : number) : number :=
  match a, b with
  | Fin x, Fin y => Fin (Qred (x - y))
  | _, _ => NaN
  end.

Definition num_mul (a b : number) : number :=
  match a, b with
  | Fin x, Fin y => Fin (Qred (x * y))
  | _, _ => NaN
  end.

(** [a == b]: false as soon as an operand is NaN. *)
Definition num_eqb (a b : number) : bool :=
  match a, b with
  | Fin x, Fin y => Qeq_bool x y
  | _, _ => false
  end.

(** [a >= b]: false as soon as an operand is NaN. *)
Definition num_geb (a b : number) : bool :=
  match a, b with
  | Fin x, Fin y => Qle_bool y x
  | _, _ => false
  end.

Definition is_nan (a : number) : bool :=
  match a with NaN => true | Fin _ => false end.

(** ** Exceptions *)

Inductive exn : Type :=
| ZeroDivisionError.

Inductive result (A : Type) : Type :=
| Ok (a : A)
| Raise (e : exn).

Arguments Ok {A} a.
Arguments Raise {A} e.

Definition bind {A B : Type} (r : result A) (k : A -> result B) : result B :=
  match r with
  | Ok a => k a
  | Raise e => Raise e
  end.

Notation "x <- r ;; k" := (bind r (fun x => k))
  (at level 61, r at next level, right associativity).

(** [a / b] of Python: a zero divisor raises whatever the dividend is; NaN
    is not zero and propagates. *)
Definition num_truediv (a b : number) : result number :=
  match b with
  | Fin y =>
      if Qeq_bool y 0 then Raise ZeroDivisionError
      else match a with
           | Fin x => Ok (Fin (Qred (x / y)))
           | NaN => Ok NaN
           end
  | NaN => Ok NaN
  end.

(** ** The scalar helpers of app.py *)

(** [calculate_trend_percentage(current_value, previous_value)], lines 113-117. *)
Definition calculate_trend_percentage (current_value previous_value : number)
  : result number :=
  if num_eqb previous_value (Fin 0) then Ok (Fin 0)
  else
    d <- num_truediv (num_sub current_value previous_value) previous_value ;;
    Ok (num_mul d (Fin 100)).

(** *** Fixed-point formatting ([f"{x:.Nf}"])

    Python renders the nearest decimal with [N] fractional digits, ties
    going to the even last digit; the sign of a negative value is kept even
    when every digit printed is zero; NaN prints as [nan]. *)

Definition round_half_even (q : Q) : Z :=
  let f := Qfloor q in
  let r := q - inject_Z f in
  match Qcompare r (1 # 2) with
  | Lt => f
  | Gt => (f + 1)%Z
  | Eq => if Z.even f then f else (f + 1)%Z
  end.

Definition digit_char (d : Z) : ascii :=
  ascii_of_nat (48 + Z.to_nat d).

(** The last [n] decimal digits of [z], most significant first. *)
Fixpoint frac_digits (n : nat) (z : Z) : string :=
  match n with
  | O => EmptyString
  | S n' => (frac_digits n' (z / 10) ++ String (digit_char (z mod 10)) EmptyString)%string
  end.

Definition string_of_Z_nonneg (z : Z) : string :=
  NilZero.string_of_uint (N.to_uint (Z.to_N z)).

Definition sign_str (q : Q) : string :=
  if Qlt_le_dec q 0 then "-"%string else ""%string.

Definition format_fixed (prec : nat) (x : number) : string :=
  match x with
  | NaN => "nan"%string
  | Fin q =>
      let scale := (10 ^ Z.of_nat prec)%Z in
      let n := round_half_even (Qabs q * inject_Z scale) in
      let int_part := string_of_Z_nonneg (n / scale) in
      let frac_part :=
        match prec with
        | O => ""%string
        | _ => ("." ++ frac_digits prec (n mod scale))%string
        end in
      (sign_str q ++ int_part ++ frac_part)%string
  end.

(** *** Rounding to a double

    [n] is the integer nearest to [x], the even one when [x] is halfway
    between two integers. *)
Definition nearest_even (x : Q) (n : Z) : Prop :=
  Qabs (x - inject_Z n) <= 1 # 2 /\
  (Qabs (x - inject_Z n) == 1 # 2 -> Z.even n = true).

(** The exponent of the power of two at or just below a positive rational. *)
Definition floor_log2 (q : Q) : Z :=
  let e0 := (Z.log2 (Qnum q) - Z.log2 (Zpos (Qden q)))%Z in
  if Qle_bool (2 ^ e0) q then e0 else (e0 - 1)%Z.

(** The double nearest to a rational, as IEEE 754 binary64 rounds the
    exact result of a division: a 53-bit mantissa, ties to the even
    mantissa, exponents from -1074 up.  A result beyond the largest double
    would be an infinity, which the numbers of this model leave out. *)
Definition binary64_round (q : Q) : Q :=
  if Qeq_bool q 0 then 0
  else
    let a := Qabs q in
    let e := Z.max (floor_log2 a - 52) (-1074) in
    let m := round_half_even (a / 2 ^ e) in
    let r := inject_Z m * 2 ^ e in
    if Qlt_le_dec q 0 then - r else r.

Definition num_binary64 (x : number) : number :=
  match x with
  | Fin q => Fin (Qred (binary64_round q))
  | NaN => NaN
  end.

(** The rational that a finite primitive float denotes, and quotients
    computed both ways, by the kernel's binary64 division and by
    [binary64_round] of the exact quotient. *)
Definition float_value (x : spec_float) : Q :=
  match x with
  | S754_finite s m e => (if s then -1 else 1) * inject_Z (Zpos m) * 2 ^ e
  | _ => 0
  end.

Definition quotients_agree (p : (float * float) * (Q * Q)) : bool :=
  let '((a, b), (x, y)) := p in
  Qeq_bool (float_value (Prim2SF (a / b)%float)) (binary64_round (x / y)).

Definition quotient_samples : list ((float * float) * (Q * Q)) :=
  [ ((1050000, 1000000)%float, (1050000, 1000000));
    ((1150000, 1000000)%float, (1150000, 1000000));
    ((1250000, 1000000)%float, (1250000, 1000000));
    ((1950000, 1000000)%float, (1950000, 1000000));
    ((1234567, 1000000)%float, (1234567, 1000000));
    ((999999999, 1000000)%float, (999999999, 1000000));
    ((21, 20)%float, (21, 20));
    ((16, 3)%float, (16, 3));
    ((1, 3)%float, (1, 3));
    ((-7, 3)%float, (-7, 3));
    ((1, 1000000)%float, (1, 1000000)) ].

(** [format_currency(value)], lines 104-111.  In the first branch the
    digit printed depends on the double that the division returns (1.05
    is not a double: the quotient of 1050000 is just above it and prints
    as 1.1).  In the second branch the division by 1000 of a double never
    lands on a tie between two integers unless the exact quotient is on
    it, so the exact quotient prints the same integer. *)
Definition format_currency (value : number) : result string :=
  if num_geb value (Fin 1000000) then
    m <- num_truediv value (Fin 1000000) ;;
    Ok ("$" ++ format_fixed 1 (num_binary64 m) ++ "M")%string
  else if num_geb value (Fin 1000) then
    k <- num_truediv value (Fin 1000) ;;
    Ok ("$" ++ format_fixed 0 k ++ "K")%string
  else
    Ok ("$" ++ format_fixed 0 value)%string.

(** ** The fact table *)

(** The fields of [order_purchase_timestamp] that the program reads. *)
Record Timestamp : Type := mkTimestamp {
  ts_year : Z;
  ts_month : Z;
  ts_day : Z;
  ts_hour : Z;
  ts_minute : Z;
  ts_second : Z
}.

(** One row of [current_data], with the columns [main] reads.  [price]
    comes from [order_items], the table the join starts from, and is never
    null; the columns attached by left joins are nullable. *)
Record SalesFactRow : Type := mkRow {
  order_id : string;
  order_purchase_timestamp : Timestamp;
  price : Q;
  product_category_name : option string;
  customer_state : option string;
  delivery_days : option Q;
  review_score : option Q
}.

Definition DataFrame : Type := list SalesFactRow.

(** A nullable numeric cell as pandas stores it: null is NaN. *)
Definition cell (v : option Q) : number :=
  match v with
  | Some q => Fin q
  | None => NaN
  end.

Definition col_price (df : DataFrame) : list number :=
  map (fun r => Fin (price r)) df.

Definition col_delivery_days (df : DataFrame) : list number :=
  map (fun r => cell (delivery_days r)) df.

Definition col_review_score (df : DataFrame) : list number :=
  map (fun r => cell (review_score r)) df.

(** ** pandas primitives *)

(** The values of a numeric series that are not null. *)
Fixpoint dropna (s : list number) : list Q :=
  match s with
  | [] => []
  | Fin q :: s' => q :: dropna s'
  | NaN :: s' => dropna s'
  end.

Definition Qsum (l : list Q) : Q := fold_right Qplus 0 l.

(** [Series.sum()]: nulls are skipped, the empty sum is 0. *)
Definition series_sum (s : list number) : number :=
  Fin (Qred (Qsum (dropna s))).

(** [Series.mean()]: nulls are skipped; NaN when nothing is left. *)
Definition series_mean (s : list number) : number :=
  match dropna s with
  | [] => NaN
  | vs => Fin (Qred (Qsum vs / inject_Z (Z.of_nat (List.length vs))))
  end.

(** [Series.nunique()] of a column without nulls. *)
Definition nunique (s : list string) : nat :=
  List.length (nodup string_dec s).

(** A stable sort, ascending for [leb]: the algorithm behind [sort_values]
    and behind the sorted keys of [groupby].  What is proved below depends
    on the order of the keys compared, never on how ties are broken. *)
Section StableSort.
Context {A : Type} (leb : A -> A -> bool).

Fixpoint insert_sorted (x : A) (l : list A) : list A :=
  match l with
  | [] => [x]
  | y :: l' => if leb x y then x :: l else y :: insert_sorted x l'
  end.

Fixpoint stable_sort (l : list A) : list A :=
  match l with
  | [] => []
  | x :: l' => insert_sorted x (stable_sort l')
  end.

(** Every element is below, for [leb], all the elements after it. *)
Definition sorted_by : list A -> Prop :=
  StronglySorted (fun a b => leb a b = true).
End StableSort.

(** What pandas needs of a group key: equality and an order. *)
Class Key (K : Type) : Type := {
  key_dec : forall x y : K, {x = y} + {x <> y};
  key_leb : K -> K -> bool
}.

#[export] Instance Key_string : Key string :=
  {| key_dec := string_dec; key_leb := String.leb |}.

#[export] Instance Key_Z : Key Z :=
  {| key_dec := Z.eq_dec; key_leb := Z.leb |}.

Section GroupBy.
Context {K : Type} `{Key K}.

(** The keys that are not null. *)
Fixpoint present (ks : list (option K)) : list K :=
  match ks with
  | [] => []
  | Some k :: ks' => k :: present ks'
  | None :: ks' => present ks'
  end.

(** The group keys of a column: null keys dropped, each key once, sorted. *)
Definition group_keys (ks : list (option K)) : list K :=
  stable_sort key_leb (nodup key_dec (present ks)).

Definition in_group (by_ : SalesFactRow -> option K) (k : K) (r : SalesFactRow) : bool :=
  match by_ r with
  | Some k' => if key_dec k' k then true else false
  | None => false
  end.

(** [df.groupby(by)[col].agg()]: one entry per key, in key order. *)
Definition groupby {V : Type} (by_ : SalesFactRow -> option K)
    (agg : DataFrame -> V) (df : DataFrame) : list (K * V) :=
  map (fun k => (k, agg (filter (in_group by_ k) df))) (group_keys (map by_ df)).
End GroupBy.

Definition value_leb {K : Type} (e1 e2 : K * number) : bool :=
  match snd e1, snd e2 with
  | Fin a, Fin b => Qle_bool a b
  | _, _ => true
  end.

(** An entry whose value is not null. *)
Definition finite_value {K : Type} (e : K * number) : Prop :=
  is_nan (snd e) = false.

(** [Series.sort_values(ascending=False)]: the values that are not null are
    reversed, sorted ascending and reversed again; nulls go last.  pandas
    sorts with quicksort by default, which leaves the order of equal
    values to the implementation; the order chosen here among equal values
    is one possible order, and nothing below states it. *)
Definition sort_values_desc {K : Type} (s : list (K * number)) : list (K * number) :=
  let non_nans := filter (fun e => negb (is_nan (snd e))) s in
  let nans := filter (fun e => is_nan (snd e)) s in
  rev (stable_sort value_leb (rev non_nans)) ++ nans.

Definition head {A : Type} (n : nat) (s : list A) : list A := firstn n s.

(** ** KPIs of [main] (lines 194-200) *)

(** [current_data['price'].sum()]: the spec's [revenue()]. *)
Definition current_revenue (df : DataFrame) : number :=
  series_sum (col_price df).

(** [current_data['order_id'].nunique()]: the spec's [order_count()]. *)
Definition current_orders (df : DataFrame) : nat :=
  nunique (map order_id df).

(** [current_revenue / current_orders if current_orders > 0 else 0]: the
    spec's [average_order_value()]. *)
Definition current_aov (df : DataFrame) : result number :=
  if (0 <? current_orders df)%nat
  then num_truediv (current_revenue df) (num_of_Z (Z.of_nat (current_orders df)))
  else Ok (Fin 0).

Definition previous_revenue (df : DataFrame) : number :=
  if (0 <? List.length df)%nat then series_sum (col_price df) else Fin 0.

Definition previous_orders (df : DataFrame) : nat :=
  if (0 <? List.length df)%nat then nunique (map order_id df) else 0%nat.

Definition previous_aov (df : DataFrame) : result number :=
  if (0 <? previous_orders df)%nat
  then num_truediv (previous_revenue df) (num_of_Z (Z.of_nat (previous_orders df)))
  else Ok (Fin 0).

(** ** Monthly revenue (lines 252-255) *)

(** [dt.to_period('M')]: a monthly period is the number of months since
    January 1970. *)
Definition to_period_M (t : Timestamp) : Z :=
  ((ts_year t - 1970) * 12 + (ts_month t - 1))%Z.

Definition period_year (p : Z) : Z := (1970 + p / 12)%Z.
Definition period_month (p : Z) : Z := (p mod 12 + 1)%Z.

(** [astype(str)] of a monthly period, [YYYY-MM], for the years 0 to 9999. *)
Definition period_str (p : Z) : string :=
  (frac_digits 4 (period_year p) ++ "-" ++ frac_digits 2 (period_month p))%string.

(** [current_data.groupby(...dt.to_period('M'))['price'].sum()]: the
    spec's [monthly_series()]. *)
Definition current_monthly (df : DataFrame) : list (Z * number) :=
  groupby (fun r => Some (to_period_M (order_purchase_timestamp r)))
          (fun g => series_sum (col_price g)) df.

(** The [period] column that the chart plots on its x axis. *)
Definition current_monthly_period (df : DataFrame) : list string :=
  map (fun e => period_str (fst e)) (current_monthly df).

(** ** Top categories (line 305) *)

(** The spec's [category_ranking(top_n)]. *)
Definition category_ranking (top_n : nat) (df : DataFrame) : list (string * number) :=
  head top_n
    (sort_values_desc
       (groupby product_category_name (fun g => series_sum (col_price g)) df)).

(** [groupby('product_category_name')['price'].sum().sort_values(ascending=False).head(10)]. *)
Definition category_revenue (df : DataFrame) : list (string * number) :=
  category_ranking 10 df.

(** ** Satisfaction by delivery bucket (lines 366-380) *)

(** Modelled from the spec: [categorize_delivery_speed] is imported from
    [data_loader], which is not among the source files; section 4.1 of the
    specification gives its rules (null is "Unknown", at most 3 days is
    "1-3 days", at most 7 days is "4-7 days", the rest is "8+ days"). *)
Definition categorize_delivery_speed (days : option Q) : string :=
  match days with
  | None => "Unknown"
  | Some d =>
      if Qle_bool d 3 then "1-3 days"
      else if Qle_bool d 7 then "4-7 days"
      else "8+ days"
  end%string.

(** [bucket_order], line 374. *)
Definition bucket_order : list string :=
  ["1-3 days"; "4-7 days"; "8+ days"; "Unknown"]%string.

(** The code of a label in a [pd.Categorical]: its position among the
    categories, none for a label that is not a category. *)
Fixpoint category_code (categories : list string) (label : string) : option nat :=
  match categories with
  | [] => None
  | c :: cs =>
      if String.eqb c label then Some O
      else option_map S (category_code cs label)
  end.

Definition has_code (categories : list string) (label : string) : bool :=
  match category_code categories label with
  | Some _ => true
  | None => false
  end.

(** An entry whose label is one of the categories. *)
Definition coded {V : Type} (categories : list string) (e : string * V) : Prop :=
  has_code categories (fst e) = true.

Definition code_leb {V : Type} (categories : list string) (e1 e2 : string * V) : bool :=
  match category_code categories (fst e1), category_code categories (fst e2) with
  | Some a, Some b => (a <=? b)%nat
  | _, _ => true
  end.

(** [sort_values] on a column made categorical: ascending category codes,
    the labels outside the categories (null after the conversion) last. *)
Definition sort_by_category {V : Type} (categories : list string)
    (s : list (string * V)) : list (string * V) :=
  stable_sort (code_leb categories) (filter (fun e => has_code categories (fst e)) s)
  ++ filter (fun e => negb (has_code categories (fst e))) s.

(** The [delivery_bucket] column added at line 369.  [categorize] stands
    for the imported [categorize_delivery_speed], so that what is proved of
    the table below does not rest on how that function is written. *)
Definition delivery_bucket (categorize : option Q -> string) (r : SalesFactRow) : string :=
  categorize (delivery_days r).

(** [satisfaction_delivery] after line 380: the spec's
    [satisfaction_by_delivery_bucket()]. *)
Definition satisfaction_delivery (categorize : option Q -> string) (df : DataFrame)
  : list (string * number) :=
  sort_by_category bucket_order
    (groupby (fun r => Some (delivery_bucket categorize r))
             (fun g => series_mean (col_review_score g)) df).

(** ** Average delivery time (lines 413-416) *)

(** [current_data['delivery_days'].mean()]: the spec's
    [average_delivery_days()]. *)
Definition current_delivery (df : DataFrame) : number :=
  series_mean (col_delivery_days df).

Definition previous_delivery (current previous : DataFrame) : number :=
  if (0 <? List.length previous)%nat
  then series_mean (col_delivery_days previous)
  else current_delivery current.

Definition delivery_trend (current previous : DataFrame) : result number :=
  calculate_trend_percentage (current_delivery current)
                             (previous_delivery current previous).

(** ** The scenarios of the specification (section 8) *)

Definition sample_row (id : string) (month : Z) (p : Q) (category : option string)
    (days score : option Q) : SalesFactRow :=
  {| order_id := id;
     order_purchase_timestamp := mkTimestamp 2018 month 15 12 0 0;
     price := p;
     product_category_name := category;
     customer_state := Some "SP"%string;
     delivery_days := days;
     review_score := score |}.

(** Scenario A: prices 10, 20, 30 in categories A, B, A. *)
Definition scenario_A : DataFrame :=
  [ sample_row "o1" 1 10 (Some "A") (Some 2) (Some 5);
    sample_row "o2" 1 20 (Some "B") (Some 2) (Some 4);
    sample_row "o3" 2 30 (Some "A") (Some 2) (Some 3) ]%string.

(** Scenario B: delivery days 1, 5, 10 and null. *)
Definition scenario_B : DataFrame :=
  [ sample_row "o1" 1 10 (Some "A") (Some 1) (Some 5);
    sample_row "o2" 1 10 (Some "A") (Some 5) (Some 4);
    sample_row "o3" 1 10 (Some "A") (Some 10) (Some 2);
    sample_row "o4" 1 10 (Some "A") None (Some 1) ]%string.

(** A delivered order that nobody reviewed. *)
Definition unreviewed_order : DataFrame :=
  [ sample_row "o1" 1 10 (Some "A") (Some 1) None ]%string.

(** * The rest of [main] *)

(** ** Dates (lines 97-102, 151-191) *)

(** A [datetime.date]. *)
Record date : Type := mkDate {
  year : Z;
  month : Z;
  day : Z
}.

(** Code that can raise [ValueError]. *)
Inductive or_value_error (A : Type) : Type :=
| Value (a : A)
| ValueError.

Arguments Value {A} a.
Arguments ValueError {A}.

Definition is_leap (y : Z) : bool :=
  ((y mod 4 =? 0) && (negb (y mod 100 =? 0) || (y mod 400 =? 0)))%Z.

Definition days_in_month (y m : Z) : Z :=
  if (m =? 2)%Z then (if is_leap y then 29 else 28)%Z
  else if ((m =? 4) || (m =? 6) || (m =? 9) || (m =? 11))%Z then 30%Z
  else 31%Z.

Definition valid_date (y m d : Z) : bool :=
  ((1 <=? y) && (y <=? 9999) && (1 <=? m) && (m <=? 12)
   && (1 <=? d) && (d <=? days_in_month y m))%Z.

(** [date(y, m, d)]: a day that does not exist raises [ValueError]. *)
Definition make_date (y m d : Z) : or_value_error date :=
  if valid_date y m d then Value (mkDate y m d) else ValueError.

(** The order of Python on tuples of integers, which is the order of
    dates and timestamps on their fields. *)
Fixpoint lex_leb (a b : list Z) : bool :=
  match a, b with
  | [], _ => true
  | _ :: _, [] => false
  | x :: a', y :: b' =>
      if (x <? y)%Z then true
      else if (x =? y)%Z then lex_leb a' b'
      else false
  end.

Definition date_fields (d : date) : list Z := [year d; month d; day d].

Definition ts_fields (t : Timestamp) : list Z :=
  [ts_year t; ts_month t; ts_day t; ts_hour t; ts_minute t; ts_second t].

(** [a <= b] on dates and on timestamps. *)
Definition date_leb (a b : date) : bool := lex_leb (date_fields a) (date_fields b).
Definition ts_leb (a b : Timestamp) : bool := lex_leb (ts_fields a) (ts_fields b).

(** [.date()] and [.dt.date]. *)
Definition ts_date (t : Timestamp) : date :=
  mkDate (ts_year t) (ts_month t) (ts_day t).

(** [Series.min()] and [Series.max()] of a column of timestamps; nothing
    stands for the NaT of an empty column. *)
Definition series_min_ts (s : list Timestamp) : option Timestamp :=
  match s with
  | [] => None
  | t :: s' => Some (fold_left (fun m x => if ts_leb m x then m else x) s' t)
  end.

Definition series_max_ts (s : list Timestamp) : option Timestamp :=
  match s with
  | [] => None
  | t :: s' => Some (fold_left (fun m x => if ts_leb m x then x else m) s' t)
  end.

(** [get_date_range(loader)], lines 97-102, on the [order_purchase_timestamp]
    column of the orders. *)
Definition get_date_range (orders : list Timestamp) : option (date * date) :=
  match series_min_ts orders, series_max_ts orders with
  | Some lo, Some hi => Some (ts_date lo, ts_date hi)
  | _, _ => None
  end.

(** What [st.date_input] can hand back, as lines 151-154 tell it apart: a
    tuple of dates, one date, or anything else. *)
Inductive date_input_value : Type :=
| DateTuple (ds : list date)
| DateValue (d : date)
| OtherValue.

(** Lines 151-154: [(start_date, end_date)]. *)
Definition select_date_range (date_range : date_input_value) (min_date : date)
  : date * date :=
  match date_range with
  | DateTuple [s; e] => (s, e)
  | DateTuple _ => (min_date, min_date)
  | DateValue d => (d, d)
  | OtherValue => (min_date, min_date)
  end.

(** The mask of lines 159-160, 180-181 and 189-190. *)
Definition in_date_window (start_date end_date : date) (t : Timestamp) : bool :=
  date_leb start_date (ts_date t) && date_leb (ts_date t) end_date.

(** [filtered_orders], lines 158-161. *)
Definition filtered_orders (start_date end_date : date) (orders : list Timestamp)
  : list Timestamp :=
  filter (in_date_window start_date end_date) orders.

(** The date filter applied to [current_data] and [previous_data], lines
    179-182 and 188-191. *)
Definition filter_date_window (start_date end_date : date) (df : DataFrame) : DataFrame :=
  filter (fun r => in_date_window start_date end_date (order_purchase_timestamp r)) df.

(** Lines 164-165 and 185-186: [(prev_start, prev_end)]. *)
Definition previous_window (start_date end_date : date) : or_value_error (date * date) :=
  let current_year := year start_date in
  let previous_year := (current_year - 1)%Z in
  match make_date previous_year (month start_date) (day start_date) with
  | ValueError => ValueError
  | Value prev_start =>
      match make_date previous_year (month end_date) (day end_date) with
      | ValueError => ValueError
      | Value prev_end => Value (prev_start, prev_end)
      end
  end.

(** ** Trends and metric cards (lines 203-240) *)

Definition revenue_trend (current previous : DataFrame) : result number :=
  calculate_trend_percentage (current_revenue current) (previous_revenue previous).

Definition aov_trend (current previous : DataFrame) : result number :=
  c <- current_aov current ;;
  p <- previous_aov previous ;;
  calculate_trend_percentage c p.

Definition orders_trend (current previous : DataFrame) : result number :=
  calculate_trend_percentage (num_of_Z (Z.of_nat (current_orders current)))
                             (num_of_Z (Z.of_nat (previous_orders previous))).

(** [a > b]: false as soon as an operand is NaN. *)
Definition num_gtb (a b : number) : bool :=
  match a, b with
  | Fin x, Fin y => negb (Qle_bool x y)
  | _, _ => false
  end.

(** ["normal" if trend >= 0 else "inverse"], lines 216, 231 and 239. *)
Definition kpi_delta_color (trend : number) : string :=
  if num_geb trend (Fin 0) then "normal"%string else "inverse"%string.

(** ["inverse" if delivery_trend > 0 else "normal"], line 422. *)
Definition delivery_delta_color (trend : number) : string :=
  if num_gtb trend (Fin 0) then "inverse"%string else "normal"%string.

(** [f"{n:,}"] of a count (line 237): the decimal digits in groups of
    three from the right, separated by commas. *)
Definition lead_digits (n : Z) : string :=
  if (n <? 10)%Z then frac_digits 1 n
  else if (n <? 100)%Z then frac_digits 2 n
  else frac_digits 3 n.

Fixpoint group_thousands (fuel : nat) (n : Z) : string :=
  match fuel with
  | O => lead_digits n
  | S fuel' =>
      if (n <? 1000)%Z then lead_digits n
      else (group_thousands fuel' (n / 1000) ++ "," ++ frac_digits 3 (n mod 1000))%string
  end.

Definition format_thousands (n : nat) : string :=
  group_thousands n (Z.of_nat n).

(** Reading a string of digits back, commas skipped. *)
Definition digit_value (c : ascii) : Z := (Z.of_nat (nat_of_ascii c) - 48)%Z.

Fixpoint read_digits (acc : Z) (s : string) : Z :=
  match s with
  | EmptyString => acc
  | String c s' =>
      if Ascii.eqb c ","%char then read_digits acc s'
      else read_digits (acc * 10 + digit_value c) s'
  end.

(** ** Revenue by state (lines 339-340) *)




(** ** The delivery and review cards (lines 413-435) *)

(** [current_data['review_score'].mean()], line 428. *)
Definition avg_review (df : DataFrame) : number :=
  series_mean (col_review_score df).

(** [int(round(x))]: to the nearest integer, ties to the even one; NaN
    cannot be converted and raises [ValueError]. *)
Definition int_round (x : number) : or_value_error Z :=
  match x with
  | NaN => ValueError
  | Fin q => Value (round_half_even q)
  end.

(** The star emoji, U+2B50, as its three UTF-8 bytes. *)
Definition star : string :=
  String (ascii_of_nat 226) (String (ascii_of_nat 173) (String (ascii_of_nat 144) EmptyString)).

(** [s * n]: empty when [n] is not positive. *)
Fixpoint repeat_string (s : string) (n : nat) : string :=
  match n with
  | O => EmptyString
  | S n' => (s ++ repeat_string s n')%string
  end.

(** [stars], line 429. *)
Definition stars (df : DataFrame) : or_value_error string :=
  match int_round (avg_review df) with
  | ValueError => ValueError
  | Value n => Value (repeat_string star (Z.to_nat n))
  end.

(** * Properties *)

(** ** Numbers *)

Lemma Qeq_bool_false_iff (x y : Q) : Qeq_bool x y = false <-> ~ x == y.
Proof.
  split.
  - apply Qeq_bool_neq.
  - intros Hne. destruct (Qeq_bool x y) eqn:E; [|reflexivity].
    apply Qeq_bool_eq in E. contradiction.
Qed.

Lemma Qred_zero (q : Q) : q == 0 -> Qred q = 0.
Proof.
  intros Hq. change 0 with (Qred 0). apply Qred_complete. exact Hq.
Qed.

Lemma num_truediv_Fin (x y : Q) :
  ~ y == 0 -> num_truediv (Fin x) (Fin y) = Ok (Fin (Qred (x / y))).
Proof.
  intros Hy. unfold num_truediv.
  now rewrite (proj2 (Qeq_bool_false_iff y 0) Hy).
Qed.

Lemma num_truediv_raises_iff (a b : number) :
  (exists e, num_truediv a b = Raise e) <-> num_eqb b (Fin 0) = true.
Proof.
  unfold num_truediv, num_eqb. destruct b as [y|].
  - destruct (Qeq_bool y 0) eqn:E.
    + split; [reflexivity | intros _; now exists ZeroDivisionError].
    + split; [| discriminate]. intros [e He]. destruct a; discriminate.
  - split; [| discriminate]. intros [e He]. discriminate.
Qed.

(** C1: the trend is 0 when the previous value is zero, whatever the
    current value, and otherwise ((current - previous) / previous) * 100;
    the call returns for every pair of numbers (the division can never see
    a zero divisor); the trend from 100 to 150 is 50. *)
Theorem calculate_trend_percentage_spec :
  (forall current previous : number,
      exists r, calculate_trend_percentage current previous = Ok r) /\
  (forall current previous : number,
      num_eqb previous (Fin 0) = true ->
      calculate_trend_percentage current previous = Ok (Fin 0)) /\
  (forall current previous : Q,
      ~ previous == 0 ->
      exists r, calculate_trend_percentage (Fin current) (Fin previous) = Ok (Fin r) /\
                r == ((current - previous) / previous) * 100) /\
  (forall current previous : number,
      num_eqb previous (Fin 0) = false ->
      is_nan current || is_nan previous = true ->
      calculate_trend_percentage current previous = Ok NaN) /\
  calculate_trend_percentage (Fin 150) (Fin 100) = Ok (Fin 50).
Proof.
  repeat split.
  - intros c p. unfold calculate_trend_percentage.
    destruct (num_eqb p (Fin 0)) eqn:E; [now eexists|].
    destruct p as [y|]; cbn in E.
    + destruct c as [x|]; cbn; rewrite E; cbn; now eexists.
    + destruct c; cbn; now eexists.
  - intros c p E. unfold calculate_trend_percentage. now rewrite E.
  - intros c p Hp. unfold calculate_trend_percentage. cbn [num_eqb num_sub].
    rewrite (proj2 (Qeq_bool_false_iff p 0) Hp).
    rewrite num_truediv_Fin by exact Hp. cbn [bind num_mul].
    eexists. split; [reflexivity|].
    rewrite Qred_correct, Qred_correct, Qred_correct. reflexivity.
  - intros c p E Hnan. unfold calculate_trend_percentage. rewrite E.
    destruct p as [y|]; cbn in E.
    + destruct c as [x|]; [discriminate|]. cbn. now rewrite E.
    + destruct c; reflexivity.
Qed.

Lemma calculate_trend_percentage_spec_witness :
  (exists r, calculate_trend_percentage (Fin 3) (Fin 2) = Ok (Fin r) /\
             r == ((3 - 2) / 2) * 100) /\
  calculate_trend_percentage (Fin 7) (Fin 0) = Ok (Fin 0) /\
  calculate_trend_percentage (Fin 7) NaN = Ok NaN.
Proof.
  destruct calculate_trend_percentage_spec as (_ & Hzero & Hformula & Hnan & _).
  split; [| split].
  - apply (Hformula 3 2). discriminate.
  - apply (Hzero (Fin 7) (Fin 0)). reflexivity.
  - apply (Hnan (Fin 7) NaN); reflexivity.
Defined.

(** The trend of an unchanged NaN is NaN, and NaN is not equal to 0. *)
Lemma trend_unchanged_nan :
  calculate_trend_percentage NaN NaN = Ok NaN /\ num_eqb NaN (Fin 0) = false.
Proof. split; reflexivity. Qed.

(** C9 as stated fails: not every value has a zero trend against itself. *)
Lemma trend_unchanged_not_always_zero :
  ~ (forall v : number,
        exists r, calculate_trend_percentage v v = Ok r /\ num_eqb r (Fin 0) = true).
Proof.
  intros H. destruct (H NaN) as [r [Hr Hz]].
  cbn in Hr. injection Hr as <-. discriminate.
Qed.

(** C9, amended: for every finite value the trend against itself is 0:
    by the guard when the value is zero, and through the formula
    ((v - v) / v) * 100 otherwise. *)
Theorem trend_unchanged_finite :
  forall v : Q,
    calculate_trend_percentage (Fin v) (Fin v) = Ok (Fin 0) /\
    (num_eqb (Fin v) (Fin 0) = true <-> v == 0) /\
    (num_eqb (Fin v) (Fin 0) = false ->
     (x <- num_truediv (num_sub (Fin v) (Fin v)) (Fin v) ;; Ok (num_mul x (Fin 100)))
     = Ok (Fin 0)).
Proof.
  intros v.
  assert (Hformula : num_eqb (Fin v) (Fin 0) = false ->
     (x <- num_truediv (num_sub (Fin v) (Fin v)) (Fin v) ;; Ok (num_mul x (Fin 100)))
     = Ok (Fin 0)).
  { cbn [num_eqb num_sub]. intros E.
    rewrite num_truediv_Fin by now apply Qeq_bool_false_iff.
    cbn [bind num_mul]. do 2 f_equal. apply Qred_zero.
    rewrite Qred_correct, Qred_correct. unfold Qminus. rewrite Qplus_opp_r.
    unfold Qdiv. rewrite Qmult_0_l. reflexivity. }
  split; [| split].
  - unfold calculate_trend_percentage.
    destruct (num_eqb (Fin v) (Fin 0)) eqn:E; [reflexivity|]. now apply Hformula.
  - cbn. apply Qeq_bool_iff.
  - exact Hformula.
Qed.

Lemma trend_unchanged_finite_witness :
  (x <- num_truediv (num_sub (Fin 5) (Fin 5)) (Fin 5) ;; Ok (num_mul x (Fin 100)))
  = Ok (Fin 0).
Proof.
  apply (proj2 (proj2 (trend_unchanged_finite 5))). reflexivity.
Defined.

(** ** Fixed-point formatting *)

Lemma round_half_even_comp (q q' : Q) :
  q == q' -> round_half_even q = round_half_even q'.
Proof.
  intros Hq. unfold round_half_even.
  rewrite (Qfloor_comp _ _ Hq).
  assert (Hr : q - inject_Z (Qfloor q') == q' - inject_Z (Qfloor q'))
    by now rewrite Hq.
  now rewrite (Qcompare_comp _ _ Hr _ _ (Qeq_refl (1 # 2))).
Qed.

(** Rounding is to a nearest integer. *)
Lemma round_half_even_nearest (q : Q) :
  Qabs (q - inject_Z (round_half_even q)) <= 1 # 2.
Proof.
  unfold round_half_even.
  pose proof (Qfloor_le q) as Hlo. pose proof (Qlt_floor q) as Hhi.
  set (f := Qfloor q) in *.
  rewrite inject_Z_plus in Hhi.
  assert (Hdown : Qabs (q - inject_Z f) == q - inject_Z f).
  { apply Qabs_pos. lra. }
  assert (Hup : Qabs (q - inject_Z (f + 1)) == inject_Z f + 1 - q).
  { rewrite inject_Z_plus. rewrite Qabs_neg by lra. ring. }
  destruct (Qcompare (q - inject_Z f) (1 # 2)) eqn:C.
  - apply Qeq_alt in C.
    destruct (Z.even f); [rewrite Hdown | rewrite Hup]; lra.
  - apply Qlt_alt in C. rewrite Hdown. lra.
  - apply Qgt_alt in C. rewrite Hup. lra.
Qed.

Lemma format_fixed_comp (prec : nat) (q q' : Q) :
  q == q' -> format_fixed prec (Fin q) = format_fixed prec (Fin q').
Proof.
  intros Hq. unfold format_fixed.
  assert (Hn : round_half_even (Qabs q * inject_Z (10 ^ Z.of_nat prec))
               = round_half_even (Qabs q' * inject_Z (10 ^ Z.of_nat prec))).
  { apply round_half_even_comp. now rewrite Hq. }
  rewrite Hn. unfold sign_str.
  destruct (Qlt_le_dec q 0) as [H|H], (Qlt_le_dec q' 0) as [H'|H'];
    try reflexivity; rewrite Hq in H; lra.
Qed.

Lemma append_empty_r (s : string) : (s ++ "")%string = s.
Proof. induction s as [|c s IH]; cbn; [reflexivity | now rewrite IH]. Qed.

Lemma sign_str_nonneg (q : Q) : 0 <= q -> sign_str q = ""%string.
Proof.
  intros Hq. unfold sign_str. destruct (Qlt_le_dec q 0); [lra | reflexivity].
Qed.

(** [f"{q:.0f}"]: the sign and the digits of the nearest integer. *)
Lemma format_fixed_0 (q : Q) :
  format_fixed 0 (Fin q)
  = (sign_str q ++ string_of_Z_nonneg (round_half_even (Qabs q)))%string.
Proof.
  unfold format_fixed, sign_str. cbn [Z.of_nat Z.pow].
  change (10 ^ 0)%Z with 1%Z. rewrite Z.div_1_r.
  rewrite (round_half_even_comp (Qabs q * inject_Z 1) (Qabs q)).
  - now rewrite append_empty_r.
  - change (inject_Z 1) with 1. ring.
Qed.


(** ** Rounding to a double *)

Lemma round_half_even_nearest_even (q : Q) : nearest_even q (round_half_even q).
Proof.
  unfold nearest_even, round_half_even.
  pose proof (Qfloor_le q) as Hlo. pose proof (Qlt_floor q) as Hhi.
  set (f := Qfloor q) in *.
  rewrite inject_Z_plus in Hhi. change (inject_Z 1) with 1 in Hhi.
  assert (Hdown : Qabs (q - inject_Z f) == q - inject_Z f).
  { apply Qabs_pos. lra. }
  assert (Hup : Qabs (q - inject_Z (f + 1)) == inject_Z f + 1 - q).
  { rewrite inject_Z_plus. change (inject_Z 1) with 1. rewrite Qabs_neg by lra. ring. }
  destruct (Qcompare (q - inject_Z f) (1 # 2)) eqn:C.
  - apply Qeq_alt in C. destruct (Z.even f) eqn:Ev.
    + rewrite Hdown. split; [lra | intros _; exact Ev].
    + rewrite Hup. split; [lra | intros _].
      rewrite Z.even_add, Ev. reflexivity.
  - apply Qlt_alt in C. rewrite Hdown. split; [lra | intros E; lra].
  - apply Qgt_alt in C. rewrite Hup. split; [lra | intros E; lra].
Qed.







(** On these quotients [binary64_round] returns the double that the
    kernel's binary64 division returns. *)
Example binary64_round_agrees_with_floats :
  forallb quotients_agree quotient_samples = true.
Proof. vm_compute. reflexivity. Qed.


(** ** format_currency *)



Example format_currency_examples :
  format_currency (Fin 999999) = Ok "$1000K"%string /\
  format_currency (Fin 1500) = Ok "$2K"%string /\
  format_currency (Fin (1999 # 2)) = Ok "$1000"%string /\
  format_currency (Fin 0) = Ok "$0"%string /\
  format_currency NaN = Ok "$nan"%string.
Proof. repeat split; vm_compute; reflexivity. Qed.

(** The digit after the point follows the double, not the decimal
    fraction: 1.05 and 1.95 are not doubles, 1.25 is one and is a tie. *)
Example format_currency_millions :
  format_currency (Fin 1050000) = Ok "$1.1M"%string /\
  format_currency (Fin 1150000) = Ok "$1.1M"%string /\
  format_currency (Fin 1950000) = Ok "$1.9M"%string /\
  format_currency (Fin 1250000) = Ok "$1.2M"%string /\
  format_currency (Fin 1234567) = Ok "$1.2M"%string /\
  format_currency (Fin (-5)) = Ok "$-5"%string /\
  format_currency (Fin 2500) = Ok "$2K"%string.
Proof. repeat split; vm_compute; reflexivity. Qed.

(** ** Sorting *)

Section SortedFacts.
Context {A : Type}.

Lemma StronglySorted_app (R : A -> A -> Prop) (l1 l2 : list A) :
  StronglySorted R l1 -> StronglySorted R l2 ->
  (forall a b, In a l1 -> In b l2 -> R a b) ->
  StronglySorted R (l1 ++ l2).
Proof.
  induction l1 as [|x l1 IH]; intros S1 S2 Hcross; cbn; [exact S2|].
  apply StronglySorted_inv in S1 as [S1 Hx].
  constructor.
  - apply IH; auto. intros a b Ha Hb. apply Hcross; [now right | exact Hb].
  - apply Forall_app. split; [exact Hx|].
    apply Forall_forall. intros b Hb. apply Hcross; [now left | exact Hb].
Qed.

Lemma StronglySorted_rev (R : A -> A -> Prop) (l : list A) :
  StronglySorted R l -> StronglySorted (fun a b => R b a) (rev l).
Proof.
  induction 1 as [|x l S IH Hx]; cbn; [constructor|].
  apply StronglySorted_app; [exact IH | repeat constructor |].
  intros a b Ha [<-|[]]. apply in_rev in Ha.
  now apply (proj1 (Forall_forall _ _) Hx).
Qed.

Lemma In_firstn (n : nat) (l : list A) (x : A) : In x (firstn n l) -> In x l.
Proof.
  revert n. induction l as [|y l IH]; intros [|n]; cbn; try tauto.
  intros [E|Hx]; [now left | right; eapply IH, Hx].
Qed.

Lemma StronglySorted_firstn (R : A -> A -> Prop) (n : nat) (l : list A) :
  StronglySorted R l -> StronglySorted R (firstn n l).
Proof.
  intros S. revert n. induction S as [|x l S IH Hx]; intros [|n]; cbn;
    try constructor; [apply IH|].
  apply Forall_forall. intros y Hy.
  apply (proj1 (Forall_forall _ _) Hx). eapply In_firstn, Hy.
Qed.

Lemma StronglySorted_weaken (R1 R2 : A -> A -> Prop) (l : list A) :
  (forall a b, In a l -> In b l -> R1 a b -> R2 a b) ->
  StronglySorted R1 l -> StronglySorted R2 l.
Proof.
  intros Himp S. induction S as [|x l S IH Hx]; constructor.
  - apply IH. intros a b Ha Hb. apply Himp; now right.
  - apply Forall_forall. intros y Hy. apply Himp; [now left | now right |].
    now apply (proj1 (Forall_forall _ _) Hx).
Qed.

Lemma StronglySorted_map {B : Type} (f : A -> B) (R : B -> B -> Prop) (l : list A) :
  StronglySorted (fun a b => R (f a) (f b)) l -> StronglySorted R (map f l).
Proof.
  induction 1 as [|x l S IH Hx]; cbn; constructor; [exact IH|].
  apply Forall_map. exact Hx.
Qed.
End SortedFacts.

Section StableSortFacts.
Context {A : Type} (leb : A -> A -> bool).

Lemma insert_sorted_perm (x : A) (l : list A) :
  Permutation (insert_sorted leb x l) (x :: l).
Proof.
  induction l as [|y l IH]; cbn; [reflexivity|].
  destruct (leb x y); [reflexivity|].
  rewrite IH. apply perm_swap.
Qed.

Lemma stable_sort_perm (l : list A) : Permutation (stable_sort leb l) l.
Proof.
  induction l as [|x l IH]; cbn; [reflexivity|].
  rewrite insert_sorted_perm. now constructor.
Qed.

Lemma stable_sort_In (x : A) (l : list A) : In x (stable_sort leb l) <-> In x l.
Proof.
  split; apply Permutation_in;
    [apply stable_sort_perm | symmetry; apply stable_sort_perm].
Qed.

(** The order only has to behave on the elements that are sorted. *)
Variable P : A -> Prop.
Hypothesis leb_total :
  forall x y, P x -> P y -> leb x y = true \/ leb y x = true.
Hypothesis leb_trans :
  forall x y z, P x -> P y -> P z ->
                leb x y = true -> leb y z = true -> leb x z = true.

Lemma insert_sorted_sorted (x : A) (l : list A) :
  P x -> Forall P l -> sorted_by leb l -> sorted_by leb (insert_sorted leb x l).
Proof.
  intros Px Pl S. induction S as [|y l S IH Hy]; cbn.
  - repeat constructor.
  - apply Forall_cons_iff in Pl as [Py Pl].
    destruct (leb x y) eqn:E.
    + constructor; [now constructor|].
      constructor; [exact E|].
      apply Forall_forall. intros z Hz.
      apply (leb_trans x y z); auto.
      * now apply (proj1 (Forall_forall _ _) Pl).
      * now apply (proj1 (Forall_forall _ _) Hy).
    + constructor; [now apply IH|].
      apply Forall_forall. intros z Hz.
      apply (Permutation_in _ (insert_sorted_perm x l)) in Hz.
      destruct Hz as [<-|Hz].
      * destruct (leb_total x y Px Py) as [H|H]; [congruence | exact H].
      * now apply (proj1 (Forall_forall _ _) Hy).
Qed.

Lemma stable_sort_sorted (l : list A) :
  Forall P l -> sorted_by leb (stable_sort leb l).
Proof.
  induction l as [|x l IH]; intros Pl; cbn; [constructor|].
  apply Forall_cons_iff in Pl as [Px Pl].
  apply insert_sorted_sorted; [exact Px | | exact (IH Pl)].
  apply Forall_forall. intros z Hz.
  exact (proj1 (Forall_forall _ _) Pl z (proj1 (stable_sort_In z l) Hz)).
Qed.
End StableSortFacts.

(** ** groupby *)

Section GroupByFacts.
Context {K : Type} `{Key K}.

Lemma present_In (k : K) (ks : list (option K)) :
  In k (present ks) <-> In (Some k) ks.
Proof.
  induction ks as [|[k'|] ks IH]; cbn.
  - tauto.
  - rewrite IH. split; intros [E|E]; auto; left; congruence.
  - rewrite IH. split; [auto | intros [E|E]; [discriminate | exact E]].
Qed.

Lemma group_keys_In (k : K) (ks : list (option K)) :
  In k (group_keys ks) <-> In (Some k) ks.
Proof.
  unfold group_keys. now rewrite stable_sort_In, nodup_In, present_In.
Qed.

Lemma group_keys_NoDup (ks : list (option K)) : NoDup (group_keys ks).
Proof.
  unfold group_keys.
  eapply Permutation_NoDup; [symmetry; apply stable_sort_perm | apply NoDup_nodup].
Qed.

Lemma in_group_iff (by_ : SalesFactRow -> option K) (k : K) (r : SalesFactRow) :
  in_group by_ k r = true <-> by_ r = Some k.
Proof.
  unfold in_group. destruct (by_ r) as [k'|]; [| split; discriminate].
  destruct (key_dec k' k) as [->|Hne]; split; try reflexivity; try discriminate.
  intros E. congruence.
Qed.

Lemma groupby_keys {V : Type} (by_ : SalesFactRow -> option K)
    (agg : DataFrame -> V) (df : DataFrame) :
  map fst (groupby by_ agg df) = group_keys (map by_ df).
Proof.
  unfold groupby. rewrite map_map. cbn. apply map_id.
Qed.

(** One entry per key that some row carries, holding the aggregate of
    exactly the rows with that key. *)
Lemma groupby_In {V : Type} (by_ : SalesFactRow -> option K)
    (agg : DataFrame -> V) (df : DataFrame) (k : K) (v : V) :
  In (k, v) (groupby by_ agg df) <->
  (exists r, In r df /\ by_ r = Some k) /\
  v = agg (filter (in_group by_ k) df).
Proof.
  unfold groupby. rewrite in_map_iff. split.
  - intros [k' [E Hk]]. injection E as -> <-.
    apply group_keys_In, in_map_iff in Hk as [r [Hr Hin]].
    split; [now exists r | reflexivity].
  - intros [[r [Hin Hr]] ->]. exists k. split; [reflexivity|].
    apply group_keys_In, in_map_iff. now exists r.
Qed.
End GroupByFacts.

(** ** Revenue, order count, average order value *)

Lemma dropna_col_price (df : DataFrame) : dropna (col_price df) = map price df.
Proof.
  unfold col_price. induction df as [|r df IH]; cbn; [reflexivity | now rewrite IH].
Qed.

Lemma dropna_cells (vs : list (option Q)) : dropna (map cell vs) = present vs.
Proof.
  induction vs as [|[v|] vs IH]; cbn; [reflexivity | now rewrite IH | exact IH].
Qed.

(** C6: the revenue is the sum of the prices of all rows; it is 0 for no
    rows and 60 for the prices 10, 20 and 30. *)
Theorem current_revenue_spec :
  (forall df : DataFrame,
      exists s, current_revenue df = Fin s /\ s == Qsum (map price df)) /\
  current_revenue [] = Fin 0 /\
  map price scenario_A = [10; 20; 30] /\
  current_revenue scenario_A = Fin 60.
Proof.
  split; [| repeat split].
  intros df. unfold current_revenue, series_sum. rewrite dropna_col_price.
  eexists. split; [reflexivity | apply Qred_correct].
Qed.

Lemma nodup_nil_inv {A : Type} (dec : forall x y : A, {x = y} + {x <> y}) (l : list A) :
  nodup dec l = [] -> l = [].
Proof.
  destruct l as [|x l]; [reflexivity|]. intros E.
  assert (Hx : In x (nodup dec (x :: l))) by (apply nodup_In; now left).
  rewrite E in Hx. destruct Hx.
Qed.

Lemma current_orders_zero (df : DataFrame) : current_orders df = 0%nat <-> df = [].
Proof.
  unfold current_orders, nunique. split.
  - intros E. apply length_zero_iff_nil, nodup_nil_inv in E.
    now apply map_eq_nil in E.
  - now intros ->.
Qed.

Lemma num_of_count_nonzero (n : nat) : (0 < n)%nat -> ~ inject_Z (Z.of_nat n) == 0.
Proof.
  intros Hn E. unfold Qeq in E. cbn in E. lia.
Qed.

(** C2: the average order value is the revenue over the number of distinct
    order ids when there is an order, and 0 when there is none; it never
    raises.  The same holds for the previous period, whose guards on the
    length of the table change nothing. *)
Theorem current_aov_spec (df : DataFrame) :
  (exists v, current_aov df = Ok v) /\
  (current_orders df = 0%nat -> current_aov df = Ok (Fin 0)) /\
  ((0 < current_orders df)%nat ->
   exists r a, current_revenue df = Fin r /\ current_aov df = Ok (Fin a) /\
               a == r / inject_Z (Z.of_nat (current_orders df))) /\
  (exists ids, NoDup ids /\
               (forall i, In i ids <-> exists r, In r df /\ order_id r = i) /\
               current_orders df = List.length ids) /\
  previous_aov df = current_aov df.
Proof.
  assert (Hpos : (0 < current_orders df)%nat ->
     exists r a, current_revenue df = Fin r /\ current_aov df = Ok (Fin a) /\
                 a == r / inject_Z (Z.of_nat (current_orders df))).
  { intros Hn. unfold current_aov.
    rewrite (proj2 (Nat.ltb_lt _ _) Hn). unfold current_revenue, series_sum, num_of_Z.
    rewrite num_truediv_Fin by now apply num_of_count_nonzero.
    do 2 eexists. split; [reflexivity|]. split; [reflexivity|]. apply Qred_correct. }
  assert (Hzero : current_orders df = 0%nat -> current_aov df = Ok (Fin 0)).
  { intros E. unfold current_aov. now rewrite E. }
  split; [| split; [exact Hzero | split; [exact Hpos | split]]].
  - destruct (current_orders df) eqn:E.
    + exists (Fin 0). now apply Hzero.
    + destruct Hpos as (r & a & _ & Ha & _); [lia|]. now exists (Fin a).
  - exists (nodup string_dec (map order_id df)). split; [apply NoDup_nodup|].
    split; [| reflexivity].
    intros i. rewrite nodup_In, in_map_iff. split; intros [r Hr]; exists r; tauto.
  - unfold previous_aov, previous_orders, previous_revenue.
    destruct df as [|r df]; reflexivity.
Qed.

Lemma current_aov_spec_witness :
  current_aov [] = Ok (Fin 0) /\
  exists r a, current_revenue scenario_A = Fin r /\
              current_aov scenario_A = Ok (Fin a) /\
              a == r / inject_Z (Z.of_nat (current_orders scenario_A)).
Proof.
  split.
  - apply (proj1 (proj2 (current_aov_spec []))). reflexivity.
  - apply (proj1 (proj2 (proj2 (current_aov_spec scenario_A)))).
    vm_compute. lia.
Defined.

(** ** Average delivery time *)

(** C7: the average delivery time is the mean of the delivery days that
    are not null, and NaN, which is not 0, when there is none; the mean of
    1, 5, 10 and a null is 16/3, printed 5.33. *)
Theorem current_delivery_spec :
  (forall df : DataFrame,
      present (map delivery_days df) = [] ->
      current_delivery df = NaN) /\
  (forall df : DataFrame,
      let days := present (map delivery_days df) in
      days <> [] ->
      exists m, current_delivery df = Fin m /\
                m == Qsum days / inject_Z (Z.of_nat (List.length days))) /\
  num_eqb NaN (Fin 0) = false /\
  map delivery_days scenario_B = [Some 1; Some 5; Some 10; None] /\
  current_delivery scenario_B = Fin (16 # 3) /\
  format_fixed 2 (current_delivery scenario_B) = "5.33"%string.
Proof.
  split; [| split; [| repeat split]].
  - intros df E. unfold current_delivery, series_mean, col_delivery_days.
    rewrite <- (map_map delivery_days cell), dropna_cells. now rewrite E.
  - intros df days Hne. unfold current_delivery, series_mean, col_delivery_days.
    rewrite <- (map_map delivery_days cell), dropna_cells. fold days.
    destruct days as [|d days']; [contradiction|].
    eexists. split; [reflexivity | apply Qred_correct].
Qed.

Lemma current_delivery_spec_witness :
  current_delivery [] = NaN /\
  exists m, current_delivery scenario_B = Fin m /\
            m == Qsum [1; 5; 10] / inject_Z (Z.of_nat 3).
Proof.
  split.
  - apply (proj1 current_delivery_spec). reflexivity.
  - apply (proj1 (proj2 current_delivery_spec) scenario_B). discriminate.
Defined.

(** ** Delivery buckets *)

(** C3: the categoriser is total; null is "Unknown", at most 3 days
    (negative values included) is "1-3 days", above 3 and at most 7 is
    "4-7 days", above 7 is "8+ days"; the result is always one of the four
    buckets, and a longer delivery never gets a less severe bucket. *)
Theorem categorize_delivery_speed_spec :
  categorize_delivery_speed None = "Unknown"%string /\
  (forall d : Q, d <= 3 -> categorize_delivery_speed (Some d) = "1-3 days"%string) /\
  (forall d : Q, 3 < d -> d <= 7 ->
                 categorize_delivery_speed (Some d) = "4-7 days"%string) /\
  (forall d : Q, 7 < d -> categorize_delivery_speed (Some d) = "8+ days"%string) /\
  (forall days : option Q, In (categorize_delivery_speed days) bucket_order) /\
  (forall d1 d2 : Q,
      0 <= d1 -> d1 <= d2 ->
      exists s1 s2,
        category_code bucket_order (categorize_delivery_speed (Some d1)) = Some s1 /\
        category_code bucket_order (categorize_delivery_speed (Some d2)) = Some s2 /\
        (s1 <= s2)%nat).
Proof.
  assert (H13 : forall d : Q, d <= 3 ->
                  categorize_delivery_speed (Some d) = "1-3 days"%string).
  { intros d Hd. cbn. now rewrite (proj2 (Qle_bool_iff d 3) Hd). }
  assert (H47 : forall d : Q, 3 < d -> d <= 7 ->
                  categorize_delivery_speed (Some d) = "4-7 days"%string).
  { intros d Hlo Hhi. cbn.
    destruct (Qle_bool d 3) eqn:E; [apply Qle_bool_iff in E; lra|].
    now rewrite (proj2 (Qle_bool_iff d 7) Hhi). }
  assert (H8 : forall d : Q, 7 < d ->
                 categorize_delivery_speed (Some d) = "8+ days"%string).
  { intros d Hd. cbn.
    destruct (Qle_bool d 3) eqn:E; [apply Qle_bool_iff in E; lra|].
    destruct (Qle_bool d 7) eqn:E'; [apply Qle_bool_iff in E'; lra|].
    reflexivity. }
  repeat split; auto.
  - intros [d|]; cbn; [| tauto].
    destruct (Qle_bool d 3); [tauto|]. destruct (Qle_bool d 7); tauto.
  - intros d1 d2 _ Hle.
    destruct (Qlt_le_dec 7 d2) as [G2|L2].
    + rewrite (H8 d2 G2).
      destruct (Qlt_le_dec 7 d1) as [G1|L1];
        [rewrite (H8 d1 G1) | destruct (Qlt_le_dec 3 d1) as [M1|S1];
                              [rewrite (H47 d1 M1 L1) | rewrite (H13 d1 S1)]];
        do 2 eexists; (split; [reflexivity | split; [reflexivity | lia]]).
    + destruct (Qlt_le_dec 3 d2) as [M2|S2].
      * rewrite (H47 d2 M2 L2).
        destruct (Qlt_le_dec 3 d1) as [M1|S1];
          [rewrite (H47 d1 M1) by lra | rewrite (H13 d1 S1)];
          do 2 eexists; (split; [reflexivity | split; [reflexivity | lia]]).
      * rewrite (H13 d2 S2), (H13 d1) by lra.
        do 2 eexists. split; [reflexivity | split; [reflexivity | lia]].
Qed.

Lemma categorize_delivery_speed_spec_witness :
  categorize_delivery_speed (Some (-2)) = "1-3 days"%string /\
  categorize_delivery_speed (Some 5) = "4-7 days"%string /\
  categorize_delivery_speed (Some (15 # 2)) = "8+ days"%string /\
  exists s1 s2,
    category_code bucket_order (categorize_delivery_speed (Some 2)) = Some s1 /\
    category_code bucket_order (categorize_delivery_speed (Some 9)) = Some s2 /\
    (s1 <= s2)%nat.
Proof.
  destruct categorize_delivery_speed_spec as (_ & H13 & H47 & H8 & _ & Hmono).
  split; [| split; [| split]].
  - apply H13. discriminate.
  - apply H47; [reflexivity | discriminate].
  - apply H8. reflexivity.
  - apply Hmono; discriminate.
Defined.

(** ** Satisfaction by delivery bucket *)

Lemma series_mean_cells (vs : list (option Q)) :
  (present vs = [] -> series_mean (map cell vs) = NaN) /\
  (present vs <> [] ->
   exists m, series_mean (map cell vs) = Fin m /\
             m == Qsum (present vs) / inject_Z (Z.of_nat (List.length (present vs)))).
Proof.
  unfold series_mean. rewrite dropna_cells. split.
  - now intros ->.
  - intros Hne. destruct (present vs) as [|v vs']; [contradiction|].
    eexists. split; [reflexivity | apply Qred_correct].
Qed.

Lemma category_code_In (categories : list string) (label : string) :
  In label categories -> exists c, category_code categories label = Some c.
Proof.
  induction categories as [|c cs IH]; cbn; [tauto|].
  intros Hin. destruct (String.eqb_spec c label) as [E|Hne]; [now eexists|].
  destruct Hin as [E|Hin]; [contradiction|].
  destruct (IH Hin) as [n ->]. now eexists.
Qed.

Lemma category_code_inj (categories : list string) (a b : string) (n : nat) :
  category_code categories a = Some n ->
  category_code categories b = Some n -> a = b.
Proof.
  revert n. induction categories as [|c cs IH]; cbn; [discriminate|].
  intros n.
  destruct (String.eqb_spec c a) as [Ea|Na], (String.eqb_spec c b) as [Eb|Nb].
  - congruence.
  - intros [= <-]. destruct (category_code cs b); discriminate.
  - destruct (category_code cs a); [| discriminate]. intros [= <-]. discriminate.
  - destruct (category_code cs a) as [x|] eqn:Ca; [| discriminate].
    destruct (category_code cs b) as [y|] eqn:Cb; [| discriminate].
    cbn. intros [= <-] [= ->]. now apply (IH x).
Qed.

Section SortByCategory.
Context {V : Type} (categories : list string).

Lemma code_leb_total (x y : string * V) :
  coded categories x -> coded categories y ->
  code_leb categories x y = true \/ code_leb categories y x = true.
Proof.
  unfold coded, has_code, code_leb.
  destruct (category_code categories (fst x)) as [a|]; [| discriminate].
  destruct (category_code categories (fst y)) as [b|]; [| discriminate].
  intros _ _. rewrite !Nat.leb_le. lia.
Qed.

Lemma code_leb_trans (x y z : string * V) :
  coded categories x -> coded categories y -> coded categories z ->
  code_leb categories x y = true -> code_leb categories y z = true ->
  code_leb categories x z = true.
Proof.
  unfold coded, has_code, code_leb.
  destruct (category_code categories (fst x)) as [a|]; [| discriminate].
  destruct (category_code categories (fst y)) as [b|]; [| discriminate].
  destruct (category_code categories (fst z)) as [c|]; [| discriminate].
  intros _ _ _. rewrite !Nat.leb_le. lia.
Qed.

Lemma sort_by_category_perm (s : list (string * V)) :
  Permutation (sort_by_category categories s) s.
Proof.
  unfold sort_by_category. rewrite stable_sort_perm.
  induction s as [|e s IH]; cbn; [reflexivity|].
  destruct (has_code categories (fst e)); cbn.
  - now constructor.
  - rewrite <- IH at 3. symmetry. apply Permutation_middle.
Qed.

(** When every label is a category and no label repeats, the entries
    come out in strictly increasing category order. *)
Lemma sort_by_category_sorted (s : list (string * V)) :
  Forall (coded categories) s -> NoDup (map fst s) ->
  StronglySorted
    (fun e1 e2 => exists c1 c2,
         category_code categories (fst e1) = Some c1 /\
         category_code categories (fst e2) = Some c2 /\ (c1 < c2)%nat)
    (sort_by_category categories s).
Proof.
  intros Hcoded Hnd. unfold sort_by_category.
  assert (Hall : filter (fun e => has_code categories (fst e)) s = s).
  { apply forallb_filter_id, forallb_forall. intros e He.
    exact (proj1 (Forall_forall _ _) Hcoded e He). }
  assert (Hnone : filter (fun e => negb (has_code categories (fst e))) s = []).
  { clear Hnd Hall. induction s as [|e s IH]; cbn; [reflexivity|].
    apply Forall_cons_iff in Hcoded as [He Hs]. unfold coded in He.
    rewrite He. cbn. now apply IH. }
  rewrite Hall, Hnone, app_nil_r.
  assert (Hsorted := stable_sort_sorted (code_leb categories) (coded categories)
                       code_leb_total code_leb_trans s Hcoded).
  assert (Hnd' : NoDup (map fst (stable_sort (code_leb categories) s))).
  { eapply Permutation_NoDup; [| exact Hnd].
    apply Permutation_map. symmetry. apply stable_sort_perm. }
  assert (Hcoded' : Forall (coded categories) (stable_sort (code_leb categories) s)).
  { apply Forall_forall. intros e He. apply stable_sort_In in He.
    exact (proj1 (Forall_forall _ _) Hcoded e He). }
  induction Hsorted as [|e l S IH He]; [constructor|].
  cbn in Hnd'. apply NoDup_cons_iff in Hnd' as [Hnotin Hnd'].
  apply Forall_cons_iff in Hcoded' as [Hce Hcl].
  constructor; [now apply IH|].
  apply Forall_forall. intros e' He'.
  pose proof (proj1 (Forall_forall _ _) He e' He') as Hle.
  pose proof (proj1 (Forall_forall _ _) Hcl e' He') as Hce'.
  unfold coded, has_code in Hce, Hce'. unfold code_leb in Hle.
  destruct (category_code categories (fst e)) as [a|] eqn:Ca; [| discriminate].
  destruct (category_code categories (fst e')) as [b|] eqn:Cb; [| discriminate].
  exists a, b. split; [reflexivity | split; [reflexivity|]].
  apply Nat.leb_le in Hle.
  destruct (Nat.eq_dec a b) as [->|Hne]; [| lia].
  exfalso. apply Hnotin. rewrite (category_code_inj _ _ _ _ Ca Cb).
  now apply in_map.
Qed.
End SortByCategory.

Lemma in_group_delivery_bucket (categorize : option Q -> string) (b : string)
    (r : SalesFactRow) :
  in_group (fun r => Some (delivery_bucket categorize r)) b r
  = String.eqb (delivery_bucket categorize r) b.
Proof.
  unfold in_group. cbn.
  destruct (string_dec (delivery_bucket categorize r) b) as [E|Hne].
  - symmetry. now apply String.eqb_eq.
  - symmetry. now apply String.eqb_neq.
Qed.

Lemma categorize_delivery_speed_In (days : option Q) :
  In (categorize_delivery_speed days) bucket_order.
Proof.
  destruct days as [d|]; cbn; [| tauto].
  destruct (Qle_bool d 3); [tauto|]. destruct (Qle_bool d 7); tauto.
Qed.

(** A bucket whose rows all lack a review score is still listed, with a
    NaN average, whatever the categoriser is. *)
Lemma satisfaction_delivery_unreviewed (categorize : option Q -> string) :
  satisfaction_delivery categorize unreviewed_order = [(categorize (Some 1), NaN)].
Proof.
  unfold satisfaction_delivery, sort_by_category, groupby, group_keys, in_group,
    delivery_bucket.
  cbn -[has_code string_dec].
  destruct (string_dec (categorize (Some 1)) (categorize (Some 1))) as [_|Hne];
    [| contradiction].
  destruct (has_code bucket_order (categorize (Some 1))); reflexivity.
Qed.

(** C4 as stated fails: a bucket with no scored rows is not always omitted. *)
Lemma satisfaction_delivery_keeps_unscored_bucket :
  ~ (forall (df : DataFrame) (b : string),
        (forall r, In r df ->
                   delivery_bucket categorize_delivery_speed r = b ->
                   review_score r = None) ->
        ~ In b (map fst (satisfaction_delivery categorize_delivery_speed df))).
Proof.
  intros H. apply (H unreviewed_order "1-3 days"%string).
  - intros r [<-|[]] _. reflexivity.
  - rewrite satisfaction_delivery_unreviewed. cbn. now left.
Qed.

(** C4, amended: the table has one entry per delivery bucket that has at
    least one row, whether or not any of its rows has a review score; the
    entry holds the mean of the review scores of the bucket that are not
    null, NaN when there is none; the entries follow the order of
    [bucket_order].  This holds for every categoriser that returns labels
    of [bucket_order]. *)
Theorem satisfaction_delivery_spec (categorize : option Q -> string) (df : DataFrame) :
  (forall (b : string) (v : number),
      In (b, v) (satisfaction_delivery categorize df) <->
      (exists r, In r df /\ delivery_bucket categorize r = b) /\
      v = series_mean
            (col_review_score
               (filter (fun r => String.eqb (delivery_bucket categorize r) b) df))) /\
  (forall g : DataFrame,
      let scores := present (map review_score g) in
      (scores = [] -> series_mean (col_review_score g) = NaN) /\
      (scores <> [] ->
       exists m, series_mean (col_review_score g) = Fin m /\
                 m == Qsum scores / inject_Z (Z.of_nat (List.length scores)))) /\
  ((forall days, In (categorize days) bucket_order) ->
   StronglySorted
     (fun e1 e2 => exists c1 c2,
          category_code bucket_order (fst e1) = Some c1 /\
          category_code bucket_order (fst e2) = Some c2 /\ (c1 < c2)%nat)
     (satisfaction_delivery categorize df)).
Proof.
  split; [| split].
  - intros b v. unfold satisfaction_delivery.
    split.
    + intros Hin.
      apply (Permutation_in _ (sort_by_category_perm bucket_order _)) in Hin.
      apply groupby_In in Hin as [[r [Hr Hb]] ->].
      split; [exists r; split; [exact Hr | congruence]|].
      do 2 f_equal. apply filter_ext. intros r'. apply in_group_delivery_bucket.
    + intros [[r [Hr Hb]] ->].
      apply (Permutation_in _ (Permutation_sym (sort_by_category_perm bucket_order _))).
      apply groupby_In. split; [exists r; split; [exact Hr | congruence]|].
      do 2 f_equal. apply filter_ext. intros r'. symmetry.
      apply in_group_delivery_bucket.
  - intros g scores. unfold col_review_score.
    rewrite <- (map_map review_score cell). apply series_mean_cells.
  - intros Hrange. unfold satisfaction_delivery. apply sort_by_category_sorted.
    + apply Forall_forall. intros [b v] Hin.
      apply groupby_In in Hin as [[r [Hr Hb]] _]. injection Hb as <-.
      unfold coded, has_code. cbn [fst].
      destruct (category_code_In bucket_order _ (Hrange (delivery_days r))) as [c Hc].
      unfold delivery_bucket. now rewrite Hc.
    + rewrite groupby_keys. apply group_keys_NoDup.
Qed.

Lemma satisfaction_delivery_spec_witness :
  In ("8+ days"%string,
      series_mean
        (col_review_score
           (filter (fun r => String.eqb (delivery_bucket categorize_delivery_speed r)
                                        "8+ days")
                   scenario_B)))
     (satisfaction_delivery categorize_delivery_speed scenario_B) /\
  series_mean (col_review_score unreviewed_order) = NaN /\
  StronglySorted
    (fun e1 e2 => exists c1 c2,
         category_code bucket_order (fst e1) = Some c1 /\
         category_code bucket_order (fst e2) = Some c2 /\ (c1 < c2)%nat)
    (satisfaction_delivery categorize_delivery_speed scenario_B).
Proof.
  destruct (satisfaction_delivery_spec categorize_delivery_speed scenario_B)
    as (Hin & Hmean & Horder).
  split; [| split].
  - apply Hin. split; [| reflexivity].
    exists (sample_row "o3" 1 10 (Some "A"%string) (Some 10) (Some 2)).
    split; [cbn; tauto | reflexivity].
  - apply (proj1 (Hmean unreviewed_order)). reflexivity.
  - apply Horder. exact categorize_delivery_speed_In.
Defined.

Example satisfaction_delivery_scenario_B :
  satisfaction_delivery categorize_delivery_speed scenario_B
  = [("1-3 days", Fin 5); ("4-7 days", Fin 4); ("8+ days", Fin 2); ("Unknown", Fin 1)]%string.
Proof. reflexivity. Qed.

(** ** Category ranking *)

Lemma series_sum_col_price (g : DataFrame) :
  exists s, series_sum (col_price g) = Fin s /\ s == Qsum (map price g).
Proof.
  unfold series_sum. rewrite dropna_col_price.
  eexists. split; [reflexivity | apply Qred_correct].
Qed.

Lemma NoDup_firstn {A : Type} (n : nat) (l : list A) : NoDup l -> NoDup (firstn n l).
Proof.
  intros Hnd. revert n. induction Hnd as [|x l Hx Hnd IH]; intros [|n]; cbn;
    try constructor; [| apply IH].
  intros Hin. apply Hx. eapply In_firstn, Hin.
Qed.

Section SortValues.
Context {K : Type}.

Lemma value_leb_total (x y : K * number) :
  finite_value x -> finite_value y -> value_leb x y = true \/ value_leb y x = true.
Proof.
  unfold finite_value, value_leb. destruct (snd x) as [a|], (snd y) as [b|]; auto.
  intros _ _. rewrite !Qle_bool_iff. destruct (Qlt_le_dec a b); [left | right]; lra.
Qed.

Lemma value_leb_trans (x y z : K * number) :
  finite_value x -> finite_value y -> finite_value z ->
  value_leb x y = true -> value_leb y z = true -> value_leb x z = true.
Proof.
  unfold finite_value, value_leb.
  destruct (snd x) as [a|], (snd y) as [b|], (snd z) as [c|]; auto; try discriminate.
  intros _ _ _. rewrite !Qle_bool_iff. lra.
Qed.

Lemma filter_partition_perm {A : Type} (f : A -> bool) (l : list A) :
  Permutation (filter (fun x => negb (f x)) l ++ filter f l) l.
Proof.
  induction l as [|x l IH]; cbn; [reflexivity|].
  destruct (f x); cbn.
  - rewrite <- IH at 3. symmetry. apply Permutation_middle.
  - now constructor.
Qed.

Lemma sort_values_desc_perm (s : list (K * number)) :
  Permutation (sort_values_desc s) s.
Proof.
  unfold sort_values_desc.
  rewrite <- Permutation_rev, stable_sort_perm, <- Permutation_rev.
  apply (filter_partition_perm (fun e => is_nan (snd e))).
Qed.

(** Without nulls among the values, the result is non-increasing. *)
Lemma sort_values_desc_sorted (s : list (K * number)) :
  Forall finite_value s ->
  StronglySorted (fun e1 e2 => num_geb (snd e1) (snd e2) = true) (sort_values_desc s).
Proof.
  intros Hfin. unfold sort_values_desc.
  assert (Hall : filter (fun e => negb (is_nan (snd e))) s = s).
  { apply forallb_filter_id, forallb_forall. intros e He.
    now rewrite (proj1 (Forall_forall _ _) Hfin e He). }
  assert (Hnone : filter (fun e => is_nan (snd e)) s = []).
  { clear Hall. induction s as [|e s IH]; cbn; [reflexivity|].
    apply Forall_cons_iff in Hfin as [He Hs]. unfold finite_value in He.
    rewrite He. now apply IH. }
  rewrite Hall, Hnone, app_nil_r.
  assert (Hrev : Forall finite_value (rev s)).
  { apply Forall_forall. intros e He. apply in_rev in He.
    exact (proj1 (Forall_forall _ _) Hfin e He). }
  pose proof (stable_sort_sorted value_leb finite_value value_leb_total value_leb_trans
                (rev s) Hrev) as Hsorted.
  apply StronglySorted_rev in Hsorted.
  eapply StronglySorted_weaken; [| exact Hsorted].
  cbn. intros a b Ha Hb Hle.
  assert (Fa : finite_value a).
  { apply in_rev, stable_sort_In in Ha.
    exact (proj1 (Forall_forall _ _) Hrev a Ha). }
  assert (Fb : finite_value b).
  { apply in_rev, stable_sort_In in Hb.
    exact (proj1 (Forall_forall _ _) Hrev b Hb). }
  unfold finite_value in Fa, Fb. unfold value_leb in Hle. unfold num_geb.
  destruct (snd a), (snd b); try discriminate. exact Hle.
Qed.
End SortValues.

(** C5: the ranking has one entry per category that is not null, holding
    the summed price of the rows of the category; it is sorted by
    non-increasing revenue, has at most [top_n] entries, and is the
    beginning of the list of all categories so sorted; the rows
    (10, A), (20, B), (30, A) rank as [(A, 40); (B, 20)]. *)
Theorem category_ranking_spec (top_n : nat) (df : DataFrame) :
  let ranking := category_ranking top_n df in
  (forall (c : string) (v : number),
      In (c, v) ranking ->
      (exists r, In r df /\ product_category_name r = Some c) /\
      exists s, v = Fin s /\
                s == Qsum (map price (filter (in_group product_category_name c) df))) /\
  (forall (c : string) (r : SalesFactRow),
      in_group product_category_name c r = true <-> product_category_name r = Some c) /\
  NoDup (map fst ranking) /\
  StronglySorted (fun e1 e2 => num_geb (snd e1) (snd e2) = true) ranking /\
  (List.length ranking <= top_n)%nat /\
  (exists full,
      ranking = firstn top_n full /\
      forall c, In c (map fst full) <->
                exists r, In r df /\ product_category_name r = Some c) /\
  category_ranking 10 scenario_A = [("A"%string, Fin 40); ("B"%string, Fin 20)].
Proof.
  cbn zeta. unfold category_ranking, head.
  set (groups := groupby product_category_name (fun g => series_sum (col_price g)) df).
  assert (Hgroups : forall c v, In (c, v) groups ->
      (exists r, In r df /\ product_category_name r = Some c) /\
      exists s, v = Fin s /\
                s == Qsum (map price (filter (in_group product_category_name c) df))).
  { intros c v Hin. apply groupby_In in Hin as [Hrow ->].
    split; [exact Hrow | apply series_sum_col_price]. }
  assert (Hfin : Forall finite_value groups).
  { apply Forall_forall. intros [c v] Hin.
    destruct (Hgroups c v Hin) as [_ [s [-> _]]]. reflexivity. }
  split; [| split; [| split; [| split; [| split; [| split]]]]].
  - intros c v Hin. apply Hgroups.
    eapply Permutation_in; [apply sort_values_desc_perm|].
    eapply In_firstn, Hin.
  - intros c r. apply in_group_iff.
  - rewrite <- firstn_map. apply NoDup_firstn.
    eapply Permutation_NoDup;
      [apply Permutation_map; symmetry; apply sort_values_desc_perm|].
    unfold groups. rewrite groupby_keys. apply group_keys_NoDup.
  - apply StronglySorted_firstn, sort_values_desc_sorted, Hfin.
  - apply firstn_le_length.
  - exists (sort_values_desc groups). split; [reflexivity|].
    intros c.
    pose proof (Permutation_map fst (sort_values_desc_perm groups)) as Hperm.
    assert (Hkeys : In c (map fst groups) <->
                    exists r, In r df /\ product_category_name r = Some c).
    { unfold groups. rewrite groupby_keys, group_keys_In, in_map_iff.
      split; intros [r Hr]; exists r; tauto. }
    rewrite <- Hkeys. split; apply Permutation_in; [| symmetry]; exact Hperm.
  - reflexivity.
Qed.

Lemma category_ranking_spec_witness :
  (exists r, In r scenario_A /\ product_category_name r = Some "A"%string) /\
  exists s, Fin 40 = Fin s /\
            s == Qsum (map price (filter (in_group product_category_name "A"%string)
                                         scenario_A)).
Proof.
  apply (proj1 (category_ranking_spec 10 scenario_A) "A"%string (Fin 40)).
  cbn. now left.
Defined.

(** ** Monthly series *)

Lemma StronglySorted_strict {A : Type} (R R' : A -> A -> Prop) (l : list A) :
  (forall a b, R a b -> a <> b -> R' a b) ->
  NoDup l -> StronglySorted R l -> StronglySorted R' l.
Proof.
  intros Hstrict Hnd S. induction S as [|x l S IH Hx]; [constructor|].
  apply NoDup_cons_iff in Hnd as [Hnotin Hnd].
  constructor; [now apply IH|].
  apply Forall_forall. intros y Hy. apply Hstrict.
  - exact (proj1 (Forall_forall _ _) Hx y Hy).
  - intros ->. contradiction.
Qed.

Lemma group_keys_Z_sorted (ks : list (option Z)) :
  StronglySorted Z.lt (group_keys ks).
Proof.
  apply (StronglySorted_strict (fun a b => (a <=? b)%Z = true)).
  - intros a b Hle Hne. apply Z.leb_le in Hle. lia.
  - apply group_keys_NoDup.
  - unfold group_keys. cbn [key_leb Key_Z].
    apply (stable_sort_sorted Z.leb (fun _ => True)).
    + intros x y _ _. rewrite !Z.leb_le. lia.
    + intros x y z _ _ _. rewrite !Z.leb_le. lia.
    + apply Forall_forall. tauto.
Qed.

Lemma in_group_period (p : Z) (r : SalesFactRow) :
  in_group (fun r => Some (to_period_M (order_purchase_timestamp r))) p r
  = (to_period_M (order_purchase_timestamp r) =? p)%Z.
Proof.
  unfold in_group. cbn.
  destruct (Z.eq_dec (to_period_M (order_purchase_timestamp r)) p) as [E|Hne].
  - symmetry. now apply Z.eqb_eq.
  - symmetry. now apply Z.eqb_neq.
Qed.

(** C8: the monthly series has exactly one entry per calendar month in
    which some row was purchased, and none for the other months; an entry
    holds the summed price of the rows of its month; the entries are in
    chronological order. *)
Theorem current_monthly_spec (df : DataFrame) :
  StronglySorted Z.lt (map fst (current_monthly df)) /\
  (forall p : Z,
      In p (map fst (current_monthly df)) <->
      exists r, In r df /\ to_period_M (order_purchase_timestamp r) = p) /\
  (forall (p : Z) (v : number),
      In (p, v) (current_monthly df) ->
      exists s, v = Fin s /\
                s == Qsum (map price
                             (filter (fun r => (to_period_M (order_purchase_timestamp r) =? p)%Z)
                                     df))) /\
  (forall t1 t2 : Timestamp,
      (1 <= ts_month t1 <= 12)%Z -> (1 <= ts_month t2 <= 12)%Z ->
      (to_period_M t1 = to_period_M t2 <->
       ts_year t1 = ts_year t2 /\ ts_month t1 = ts_month t2) /\
      ((to_period_M t1 < to_period_M t2)%Z <->
       (ts_year t1 < ts_year t2)%Z \/
       (ts_year t1 = ts_year t2 /\ (ts_month t1 < ts_month t2)%Z))).
Proof.
  unfold current_monthly. split; [| split; [| split]].
  - rewrite groupby_keys. apply group_keys_Z_sorted.
  - intros p. rewrite groupby_keys, group_keys_In, in_map_iff.
    split.
    + intros [r [E Hr]]. exists r. split; [exact Hr | congruence].
    + intros [r [Hr E]]. exists r. split; [congruence | exact Hr].
  - intros p v Hin. apply groupby_In in Hin as [_ ->].
    destruct (series_sum_col_price
                (filter (in_group (fun r => Some (to_period_M (order_purchase_timestamp r))) p)
                        df)) as [s [Hs Hsum]].
    exists s. split; [exact Hs|].
    rewrite Hsum. erewrite filter_ext; [reflexivity|].
    intros r. apply in_group_period.
  - intros t1 t2 H1 H2. unfold to_period_M. split; split; lia.
Qed.

Lemma current_monthly_spec_witness :
  (exists s, Fin 30 = Fin s /\
             s == Qsum (map price
                          (filter (fun r => (to_period_M (order_purchase_timestamp r) =? 576)%Z)
                                  scenario_A))) /\
  ((to_period_M (mkTimestamp 2017 12 31 23 59 59)
    < to_period_M (mkTimestamp 2018 1 1 0 0 0))%Z <->
   (2017 < 2018)%Z \/ (2017%Z = 2018%Z /\ (12 < 1)%Z)).
Proof.
  destruct (current_monthly_spec scenario_A) as (_ & _ & Hsum & Hcal).
  split.
  - apply (Hsum 576%Z (Fin 30)). cbn. now left.
  - apply (proj2 (Hcal (mkTimestamp 2017 12 31 23 59 59) (mkTimestamp 2018 1 1 0 0 0)
                       ltac:(cbn; lia) ltac:(cbn; lia))).
Defined.

Example current_monthly_scenario_A :
  current_monthly scenario_A = [(576%Z, Fin 30); (577%Z, Fin 30)] /\
  current_monthly_period scenario_A = ["2018-01"; "2018-02"]%string.
Proof. split; reflexivity. Qed.

(** ** The delivery trend with nothing delivered *)

(** With no delivery time in the current period and no previous period,
    the trend compares NaN with itself and is NaN. *)
Example delivery_trend_no_data : delivery_trend [] [] = Ok NaN.
Proof. reflexivity. Qed.

(** * Further properties of app.py *)

(** ** Trends *)

Lemma trend_value (c p : Q) :
  ~ p == 0 ->
  exists t, calculate_trend_percentage (Fin c) (Fin p) = Ok (Fin t) /\
            t * p == (c - p) * 100.
Proof.
  intros Hp. unfold calculate_trend_percentage. cbn [num_eqb num_sub].
  rewrite (proj2 (Qeq_bool_false_iff p 0) Hp).
  rewrite num_truediv_Fin by exact Hp. cbn [bind num_mul].
  eexists. split; [reflexivity|].
  rewrite !Qred_correct. field. exact Hp.
Qed.

(** X1: against a positive previous value the trend is non-negative
    exactly when the current value has not fallen, so the card is coloured
    "normal" exactly then; against a negative previous value the sign is
    the other way round. *)
Theorem trend_sign (c p : Q) :
  ~ p == 0 ->
  exists t,
    calculate_trend_percentage (Fin c) (Fin p) = Ok (Fin t) /\
    (0 < p -> (0 <= t <-> p <= c) /\ (0 < t <-> p < c) /\
              (kpi_delta_color (Fin t) = "normal"%string <-> p <= c)) /\
    (p < 0 -> (0 <= t <-> c <= p) /\ (0 < t <-> c < p)).
Proof.
  intros Hp. destruct (trend_value c p Hp) as [t [Ht Hmul]].
  exists t. split; [exact Ht|].
  assert (Hpos : 0 < p -> (0 <= t <-> p <= c) /\ (0 < t <-> p < c)).
  { intros Hpp. split; split; intros H; nra. }
  split.
  - intros Hpp. destruct (Hpos Hpp) as [Hle Hlt]. split; [exact Hle | split; [exact Hlt|]].
    unfold kpi_delta_color. cbn [num_geb].
    destruct (Qle_bool 0 t) eqn:E.
    + apply Qle_bool_iff in E. split; [intros _; now apply Hle | reflexivity].
    + split; [discriminate|]. intros Hcp. apply Hle, Qle_bool_iff in Hcp. congruence.
  - intros Hpn. split; split; intros H; nra.
Qed.

Lemma trend_sign_witness :
  exists t,
    calculate_trend_percentage (Fin 150) (Fin 100) = Ok (Fin t) /\
    (0 < 100 -> (0 <= t <-> 100 <= 150) /\ (0 < t <-> 100 < 150) /\
                (kpi_delta_color (Fin t) = "normal"%string <-> 100 <= 150)) /\
    (100 < 0 -> (0 <= t <-> 150 <= 100) /\ (0 < t <-> 150 < 100)).
Proof.
  apply (trend_sign 150 100). discriminate.
Defined.

(** X2: against the same previous value, a current value that is at least
    as high never shows a lower trend when the previous value is positive,
    and never a higher one when it is negative. *)
Theorem trend_monotone (c1 c2 p : Q) :
  ~ p == 0 ->
  c1 <= c2 ->
  exists t1 t2,
    calculate_trend_percentage (Fin c1) (Fin p) = Ok (Fin t1) /\
    calculate_trend_percentage (Fin c2) (Fin p) = Ok (Fin t2) /\
    (0 < p -> t1 <= t2) /\
    (p < 0 -> t2 <= t1).
Proof.
  intros Hp Hc.
  destruct (trend_value c1 p Hp) as [t1 [Ht1 Hm1]].
  destruct (trend_value c2 p Hp) as [t2 [Ht2 Hm2]].
  exists t1, t2. split; [exact Ht1 | split; [exact Ht2|]].
  assert (Hd : (t2 - t1) * p == (c2 - c1) * 100).
  { assert (E : (t2 - t1) * p == t2 * p - t1 * p) by ring.
    rewrite E, Hm1, Hm2. ring. }
  split; intros Hs.
  - destruct (Qlt_le_dec t2 t1) as [Hlt|]; [| assumption]. exfalso. nra.
  - destruct (Qlt_le_dec t1 t2) as [Hlt|]; [| assumption]. exfalso. nra.
Qed.

Lemma trend_monotone_witness :
  exists t1 t2,
    calculate_trend_percentage (Fin 120) (Fin 100) = Ok (Fin t1) /\
    calculate_trend_percentage (Fin 150) (Fin 100) = Ok (Fin t2) /\
    (0 < 100 -> t1 <= t2) /\
    (100 < 0 -> t2 <= t1).
Proof.
  apply (trend_monotone 120 150 100); discriminate.
Defined.

(** ** The three KPI trends (lines 194-205) *)

Lemma trend_from_zero (p : Q) :
  ~ p == 0 -> calculate_trend_percentage (Fin 0) (Fin p) = Ok (Fin (-100)).
Proof.
  intros Hp. unfold calculate_trend_percentage. cbn [num_eqb num_sub].
  rewrite (proj2 (Qeq_bool_false_iff p 0) Hp).
  rewrite num_truediv_Fin by exact Hp. cbn [bind num_mul].
  do 2 f_equal. change (-100) with (Qred (-100)). apply Qred_complete.
  rewrite !Qred_correct. field. exact Hp.
Qed.

Lemma trend_returns (c p : number) : exists r, calculate_trend_percentage c p = Ok r.
Proof.
  unfold calculate_trend_percentage.
  destruct (num_eqb p (Fin 0)) eqn:E; [now eexists|].
  destruct p as [y|]; cbn in E.
  - destruct c as [x|]; cbn; rewrite E; cbn; now eexists.
  - destruct c; cbn; now eexists.
Qed.

Lemma previous_aov_current (df : DataFrame) : previous_aov df = current_aov df.
Proof.
  unfold previous_aov, previous_orders, previous_revenue.
  destruct df as [|r df]; reflexivity.
Qed.

Lemma current_aov_value (df : DataFrame) :
  df <> [] ->
  exists r a, current_revenue df = Fin r /\ current_aov df = Ok (Fin a) /\
              a == r / inject_Z (Z.of_nat (current_orders df)) /\
              (0 < current_orders df)%nat.
Proof.
  intros Hne.
  assert (Hn : (0 < current_orders df)%nat).
  { destruct (current_orders df) eqn:E; [| lia].
    apply current_orders_zero in E. contradiction. }
  unfold current_aov. rewrite (proj2 (Nat.ltb_lt _ _) Hn).
  unfold current_revenue, series_sum, num_of_Z.
  rewrite num_truediv_Fin by now apply num_of_count_nonzero.
  do 2 eexists. split; [reflexivity|]. split; [reflexivity|].
  split; [apply Qred_correct | exact Hn].
Qed.

Lemma current_aov_returns (df : DataFrame) : exists a, current_aov df = Ok a.
Proof.
  destruct df as [|r df]; [now exists (Fin 0)|].
  destruct (current_aov_value (r :: df)) as (s & a & _ & Ha & _); [discriminate|].
  now exists (Fin a).
Qed.

(** X3: the revenue, order-value and order-count trends never raise; with
    no row in the previous period all three are 0; with no row in the
    current period the order-count trend is -100 as soon as the previous
    period has a row, and the revenue and order-value trends are -100 as
    soon as the previous revenue is not zero. *)
Theorem kpi_trends_spec (current previous : DataFrame) :
  (exists r a o, revenue_trend current previous = Ok r /\
                 aov_trend current previous = Ok a /\
                 orders_trend current previous = Ok o) /\
  (previous = [] ->
   revenue_trend current previous = Ok (Fin 0) /\
   aov_trend current previous = Ok (Fin 0) /\
   orders_trend current previous = Ok (Fin 0)) /\
  (current = [] -> previous <> [] ->
   orders_trend current previous = Ok (Fin (-100))) /\
  (current = [] ->
   forall s, current_revenue previous = Fin s -> ~ s == 0 ->
   revenue_trend current previous = Ok (Fin (-100)) /\
   aov_trend current previous = Ok (Fin (-100))).
Proof.
  split; [| split; [| split]].
  - unfold revenue_trend, aov_trend, orders_trend.
    destruct (trend_returns (current_revenue current) (previous_revenue previous))
      as [r Hr].
    destruct (current_aov_returns current) as [c Hc].
    destruct (current_aov_returns previous) as [p Hp].
    rewrite previous_aov_current, Hc, Hp. cbn [bind].
    destruct (trend_returns c p) as [a Ha].
    destruct (trend_returns (num_of_Z (Z.of_nat (current_orders current)))
                            (num_of_Z (Z.of_nat (previous_orders previous))))
      as [o Ho].
    now exists r, a, o.
  - intros ->. unfold revenue_trend, aov_trend, orders_trend.
    destruct (current_aov_returns current) as [c Hc]. rewrite Hc.
    repeat split.
  - intros -> Hne. unfold orders_trend. cbn [current_orders map nunique nodup List.length].
    destruct (current_aov_value previous Hne) as (_ & _ & _ & _ & _ & Hn).
    unfold previous_orders. destruct previous as [|r previous]; [contradiction|].
    cbn [List.length Nat.ltb Nat.leb]. fold (current_orders (r :: previous)).
    apply (trend_from_zero (inject_Z (Z.of_nat (current_orders (r :: previous))))).
    now apply num_of_count_nonzero.
  - intros -> s Hs Hnz.
    assert (Hne : previous <> []).
    { intros ->. cbn in Hs. injection Hs as <-. now apply Hnz. }
    split.
    + unfold revenue_trend, previous_revenue.
      destruct previous as [|r previous]; [contradiction|].
      cbn [List.length Nat.ltb Nat.leb]. fold (current_revenue (r :: previous)).
      rewrite Hs. now apply trend_from_zero.
    + unfold aov_trend. rewrite previous_aov_current.
      destruct (current_aov_value previous Hne) as (s' & a & Hs' & Ha & Hdiv & Hn).
      rewrite Ha. cbn [current_aov current_orders map nunique nodup List.length
                       Nat.ltb Nat.leb bind].
      apply trend_from_zero. rewrite Hs in Hs'. injection Hs' as <-.
      intros Ha0. apply Hnz.
      assert (Hcount := num_of_count_nonzero _ Hn).
      assert (E : s == a * inject_Z (Z.of_nat (current_orders previous))).
      { rewrite Hdiv. field. exact Hcount. }
      rewrite E, Ha0. ring.
Qed.

Lemma kpi_trends_spec_witness :
  (revenue_trend scenario_A [] = Ok (Fin 0) /\
   aov_trend scenario_A [] = Ok (Fin 0) /\
   orders_trend scenario_A [] = Ok (Fin 0)) /\
  orders_trend [] scenario_A = Ok (Fin (-100)) /\
  revenue_trend [] scenario_A = Ok (Fin (-100)) /\
  aov_trend [] scenario_A = Ok (Fin (-100)).
Proof.
  split; [| split].
  - apply (proj1 (proj2 (kpi_trends_spec scenario_A []))). reflexivity.
  - apply (proj1 (proj2 (proj2 (kpi_trends_spec [] scenario_A)))); [reflexivity | discriminate].
  - apply (proj2 (proj2 (proj2 (kpi_trends_spec [] scenario_A))) eq_refl 60);
      [reflexivity | discriminate].
Defined.

(** ** Grouped sums add up *)

Lemma Qsum_cons (x : Q) (l : list Q) : Qsum (x :: l) = x + Qsum l.
Proof. reflexivity. Qed.

Lemma Qsum_app (l1 l2 : list Q) : Qsum (l1 ++ l2) == Qsum l1 + Qsum l2.
Proof.
  induction l1 as [|x l1 IH]; [cbn [app]; change (Qsum []) with 0; ring|].
  cbn [app]. rewrite !Qsum_cons, IH. ring.
Qed.


Lemma Qsum_nonneg (l : list Q) : Forall (fun x => 0 <= x) l -> 0 <= Qsum l.
Proof.
  induction 1 as [|x l Hx _ IH]; [apply Qle_refl|]. rewrite Qsum_cons. lra.
Qed.



Lemma Qsum_firstn_le (n : nat) (l : list Q) :
  Forall (fun x => 0 <= x) l -> Qsum (firstn n l) <= Qsum l.
Proof.
  intros Hl. revert n. induction Hl as [|x l Hx Hl IH]; intros [|n]; cbn [firstn];
    rewrite ?Qsum_cons; change (Qsum []) with 0; try lra.
  - pose proof (Qsum_nonneg l Hl). lra.
  - specialize (IH n). lra.
Qed.



Section GroupByTotals.
Context {K : Type} `{Key K}.
Variable by_ : SalesFactRow -> option K.






End GroupByTotals.

Lemma filter_all {A : Type} (f : A -> bool) (l : list A) :
  (forall x, In x l -> f x = true) -> filter f l = l.
Proof.
  intros Hall. apply forallb_filter_id, forallb_forall. exact Hall.
Qed.


(** ** Totals of the monthly series, of the ranking and of the states *)




Lemma StronglySorted_app_inv {A : Type} (R : A -> A -> Prop) (l1 l2 : list A) :
  StronglySorted R (l1 ++ l2) -> forall a b, In a l1 -> In b l2 -> R a b.
Proof.
  induction l1 as [|x l1 IH]; intros S a b Ha Hb; [destruct Ha|].
  cbn in S. apply StronglySorted_inv in S as [S Hx].
  destruct Ha as [<-|Ha].
  - apply (proj1 (Forall_forall _ _) Hx). apply in_or_app. now right.
  - now apply IH.
Qed.

Lemma groupby_sum_finite {K : Type} `{Key K} (by_ : SalesFactRow -> option K)
    (df : DataFrame) :
  Forall finite_value (groupby by_ (fun g => series_sum (col_price g)) df).
Proof.
  apply Forall_forall. intros [k v] Hin.
  apply groupby_In in Hin as [_ ->]. reflexivity.
Qed.

(** X5: the categories that the ranking leaves out earn no more than any
    category it lists. *)
Theorem category_ranking_keeps_largest (top_n : nat) (df : DataFrame)
    (c c' : string) (v : number) (r : SalesFactRow) :
  In (c, v) (category_ranking top_n df) ->
  In r df -> product_category_name r = Some c' ->
  ~ In c' (map fst (category_ranking top_n df)) ->
  num_geb v (series_sum (col_price (filter (in_group product_category_name c') df)))
  = true.
Proof.
  intros Hin Hr Hc' Hout. unfold category_ranking, head in *.
  set (groups := groupby product_category_name (fun g => series_sum (col_price g)) df) in *.
  set (full := sort_values_desc groups) in *.
  set (v' := series_sum (col_price (filter (in_group product_category_name c') df))).
  assert (Hfull : In (c', v') full).
  { apply (Permutation_in _ (Permutation_sym (sort_values_desc_perm groups))).
    apply groupby_In. split; [now exists r | reflexivity]. }
  rewrite <- (firstn_skipn top_n full) in Hfull.
  apply in_app_or in Hfull as [Hfirst|Hrest].
  - exfalso. apply Hout. apply (in_map fst) in Hfirst. exact Hfirst.
  - assert (Hsorted : StronglySorted (fun e1 e2 => num_geb (snd e1) (snd e2) = true)
                                     (firstn top_n full ++ skipn top_n full)).
    { rewrite firstn_skipn. apply sort_values_desc_sorted, groupby_sum_finite. }
    exact (StronglySorted_app_inv _ _ _ Hsorted (c, v) (c', v') Hin Hrest).
Qed.

Lemma category_ranking_keeps_largest_witness :
  num_geb (Fin 40)
          (series_sum (col_price (filter (in_group product_category_name "B"%string)
                                         scenario_A)))
  = true.
Proof.
  apply (category_ranking_keeps_largest 1 scenario_A "A"%string "B"%string (Fin 40)
           (sample_row "o2" 1 20 (Some "B"%string) (Some 2) (Some 4))).
  - cbn. now left.
  - cbn. tauto.
  - reflexivity.
  - cbn. intros [E|[]]. discriminate.
Defined.





(** ** Dates and the date window *)

Lemma lex_leb_total (a b : list Z) : lex_leb a b = true \/ lex_leb b a = true.
Proof.
  revert b. induction a as [|x a IH]; intros [|y b]; cbn; auto.
  destruct (Z.ltb_spec x y), (Z.ltb_spec y x), (Z.eqb_spec x y), (Z.eqb_spec y x);
    auto; lia.
Qed.

Lemma lex_leb_trans (a b c : list Z) :
  lex_leb a b = true -> lex_leb b c = true -> lex_leb a c = true.
Proof.
  revert b c. induction a as [|x a IH]; intros [|y b] [|z c]; cbn; auto;
    try discriminate.
  destruct (Z.ltb_spec x y), (Z.ltb_spec y z), (Z.ltb_spec x z),
    (Z.eqb_spec x y), (Z.eqb_spec y z), (Z.eqb_spec x z);
    auto; try discriminate; try lia.
  apply IH.
Qed.

Lemma lex_leb_prefix (a b a' b' : list Z) :
  List.length a = List.length b ->
  lex_leb (a ++ a') (b ++ b') = true -> lex_leb a b = true.
Proof.
  revert b. induction a as [|x a IH]; intros [|y b] Hlen; cbn; auto; try discriminate.
  injection Hlen as Hlen.
  destruct (Z.ltb_spec x y); [reflexivity|].
  destruct (Z.eqb_spec x y); [| discriminate]. now apply IH.
Qed.

(** The order is total: what is not below is above. *)
Lemma lex_leb_false (a b : list Z) : lex_leb a b = false -> lex_leb b a = true.
Proof.
  intros E. destruct (lex_leb_total a b) as [H|H]; [congruence | exact H].
Qed.

Lemma ts_leb_date (a b : Timestamp) :
  ts_leb a b = true -> date_leb (ts_date a) (ts_date b) = true.
Proof.
  unfold ts_leb, date_leb, ts_fields, date_fields, ts_date. cbn [year month day].
  apply (lex_leb_prefix [ts_year a; ts_month a; ts_day a]
                        [ts_year b; ts_month b; ts_day b]
                        [ts_hour a; ts_minute a; ts_second a]
                        [ts_hour b; ts_minute b; ts_second b]).
  reflexivity.
Qed.

Lemma fold_min_spec (l : list Timestamp) (m0 : Timestamp) :
  let m := fold_left (fun m x => if ts_leb m x then m else x) l m0 in
  ts_leb m m0 = true /\ (forall t, In t l -> ts_leb m t = true) /\ In m (m0 :: l).
Proof.
  revert m0. induction l as [|x l IH]; intros m0; cbn [fold_left].
  - split; [| split]; [| intros t [] | now left].
    destruct (lex_leb_total (ts_fields m0) (ts_fields m0)); assumption.
  - destruct (ts_leb m0 x) eqn:E.
    + destruct (IH m0) as (H0 & Hl & Hin). split; [exact H0 | split].
      * intros t [<-|Ht]; [| now apply Hl].
        unfold ts_leb in *. eapply lex_leb_trans; eassumption.
      * destruct Hin as [Hin|Hin]; [now left | right; now right].
    + destruct (IH x) as (H0 & Hl & Hin). split; [| split].
      * unfold ts_leb in *. eapply lex_leb_trans; [exact H0|]. now apply lex_leb_false.
      * intros t [<-|Ht]; [exact H0 | now apply Hl].
      * right. exact Hin.
Qed.

Lemma fold_max_spec (l : list Timestamp) (m0 : Timestamp) :
  let m := fold_left (fun m x => if ts_leb m x then x else m) l m0 in
  ts_leb m0 m = true /\ (forall t, In t l -> ts_leb t m = true) /\ In m (m0 :: l).
Proof.
  revert m0. induction l as [|x l IH]; intros m0; cbn [fold_left].
  - split; [| split]; [| intros t [] | now left].
    destruct (lex_leb_total (ts_fields m0) (ts_fields m0)); assumption.
  - destruct (ts_leb m0 x) eqn:E.
    + destruct (IH x) as (H0 & Hl & Hin). split; [| split].
      * unfold ts_leb in *. eapply lex_leb_trans; eassumption.
      * intros t [<-|Ht]; [exact H0 | now apply Hl].
      * right. exact Hin.
    + destruct (IH m0) as (H0 & Hl & Hin). split; [exact H0 | split].
      * intros t [<-|Ht]; [| now apply Hl].
        unfold ts_leb in *. eapply lex_leb_trans; [| exact H0]. now apply lex_leb_false.
      * destruct Hin as [Hin|Hin]; [now left | right; now right].
Qed.

(** X8: the date range read off the orders runs from the day of the
    earliest order to the day of the latest one; it is missing only when
    there is no order; and the default window, which is this range, keeps
    every order and every row of a table whose purchase times are those of
    orders. *)
Theorem get_date_range_spec (orders : list Timestamp) :
  (get_date_range orders = None <-> orders = []) /\
  (forall min_date max_date : date,
      get_date_range orders = Some (min_date, max_date) ->
      (exists t, In t orders /\ ts_date t = min_date) /\
      (exists t, In t orders /\ ts_date t = max_date) /\
      (forall t, In t orders ->
                 date_leb min_date (ts_date t) = true /\
                 date_leb (ts_date t) max_date = true) /\
      filtered_orders min_date max_date orders = orders /\
      (forall df : DataFrame,
          (forall r, In r df -> In (order_purchase_timestamp r) orders) ->
          filter_date_window min_date max_date df = df)).
Proof.
  split.
  - destruct orders as [|t orders]; cbn; [tauto|]. split; discriminate.
  - intros min_date max_date Hrange.
    destruct orders as [|t0 orders]; [discriminate|].
    unfold get_date_range, series_min_ts, series_max_ts in Hrange.
    destruct (fold_min_spec orders t0) as (Hlo0 & Hlo & Hloin).
    destruct (fold_max_spec orders t0) as (Hhi0 & Hhi & Hhiin).
    cbn zeta in *. injection Hrange as <- <-.
    assert (Hwin : forall t, In t (t0 :: orders) ->
              date_leb (ts_date (fold_left (fun m x => if ts_leb m x then m else x) orders t0))
                       (ts_date t) = true /\
              date_leb (ts_date t)
                       (ts_date (fold_left (fun m x => if ts_leb m x then x else m) orders t0))
              = true).
    { intros t [<-|Ht]; split; apply ts_leb_date; auto. }
    split; [eexists; split; [exact Hloin | reflexivity]|].
    split; [eexists; split; [exact Hhiin | reflexivity]|].
    split; [exact Hwin|].
    split.
    + apply filter_all. intros t Ht. unfold in_date_window.
      destruct (Hwin t Ht) as [-> ->]. reflexivity.
    + intros df Hdf. apply filter_all. intros r Hr. unfold in_date_window.
      destruct (Hwin _ (Hdf r Hr)) as [-> ->]. reflexivity.
Qed.

Lemma get_date_range_spec_witness :
  filtered_orders (mkDate 2017 5 3) (mkDate 2018 7 3)
    [mkTimestamp 2018 1 3 0 0 0; mkTimestamp 2017 5 3 1 0 0; mkTimestamp 2018 7 3 0 0 0]
  = [mkTimestamp 2018 1 3 0 0 0; mkTimestamp 2017 5 3 1 0 0; mkTimestamp 2018 7 3 0 0 0].
Proof.
  apply (proj2 (get_date_range_spec
                  [mkTimestamp 2018 1 3 0 0 0; mkTimestamp 2017 5 3 1 0 0;
                   mkTimestamp 2018 7 3 0 0 0])
               (mkDate 2017 5 3) (mkDate 2018 7 3)).
  reflexivity.
Defined.

(** ** The window of the previous year (lines 164-191) *)

Lemma is_leap_not_consecutive (y : Z) : is_leap y = true -> is_leap (y - 1) = false.
Proof.
  unfold is_leap. intros Hy.
  apply andb_true_iff in Hy as [H4 _]. apply Z.eqb_eq in H4.
  apply andb_false_iff. left. apply Z.eqb_neq.
  intros H4'.
  pose proof (Z.mod_pos_bound y 4 ltac:(lia)).
  pose proof (Z.mod_pos_bound (y - 1) 4 ltac:(lia)).
  pose proof (Z.div_mod y 4 ltac:(lia)).
  pose proof (Z.div_mod (y - 1) 4 ltac:(lia)).
  lia.
Qed.

Lemma valid_date_iff (y m d : Z) :
  valid_date y m d = true <->
  (1 <= y <= 9999 /\ 1 <= m <= 12 /\ 1 <= d <= days_in_month y m)%Z.
Proof.
  unfold valid_date. rewrite !andb_true_iff, !Z.leb_le. tauto.
Qed.

Lemma days_in_month_other_year (y y' m : Z) :
  m <> 2%Z -> days_in_month y m = days_in_month y' m.
Proof.
  intros Hm. unfold days_in_month. now rewrite (proj2 (Z.eqb_neq m 2) Hm).
Qed.

Lemma days_in_february (y : Z) :
  days_in_month y 2 = if is_leap y then 29%Z else 28%Z.
Proof. reflexivity. Qed.

(** The same month and day exist one year earlier, unless the day is a
    29 February that the earlier year does not have. *)
Lemma make_date_previous_year (y y' m d : Z) :
  valid_date y' m d = true -> (1 <= y <= 9999)%Z ->
  (make_date y m d = ValueError <->
   m = 2%Z /\ d = 29%Z /\ is_leap y = false).
Proof.
  intros Hv Hy. apply valid_date_iff in Hv as (_ & Hm & Hd).
  unfold make_date. destruct (valid_date y m d) eqn:E.
  - split; [discriminate|]. intros (-> & -> & Hleap).
    apply valid_date_iff in E as (_ & _ & Hd').
    rewrite days_in_february, Hleap in Hd'. lia.
  - split; [intros _ | reflexivity].
    destruct (Z.eq_dec m 2) as [->|Hne].
    + rewrite days_in_february in Hd.
      destruct (is_leap y) eqn:Hleap.
      * exfalso. assert (valid_date y 2 d = true); [| congruence].
        apply valid_date_iff. rewrite days_in_february, Hleap.
        destruct (is_leap y'); lia.
      * destruct (Z.eq_dec d 29) as [->|Hd29]; [tauto|].
        exfalso. assert (valid_date y 2 d = true); [| congruence].
        apply valid_date_iff. rewrite days_in_february, Hleap.
        destruct (is_leap y'); lia.
    + exfalso. assert (valid_date y m d = true); [| congruence].
      apply valid_date_iff. rewrite (days_in_month_other_year y y' m Hne). lia.
Qed.

(** X9: for a window of real dates that starts in year 2 or later, the
    window of the previous year cannot be built, and [ValueError] is
    raised, exactly when the start is a 29 February, or the end is a
    29 February and the year before the start is not a leap year;
    otherwise it is the same months and days in the year before the start
    date, for its end as well. *)
Theorem previous_window_spec (start_date end_date : date) :
  valid_date (year start_date) (month start_date) (day start_date) = true ->
  valid_date (year end_date) (month end_date) (day end_date) = true ->
  (2 <= year start_date)%Z ->
  (previous_window start_date end_date = ValueError <->
   (month start_date = 2%Z /\ day start_date = 29%Z) \/
   (month end_date = 2%Z /\ day end_date = 29%Z /\
    is_leap (year start_date - 1) = false)) /\
  (forall w, previous_window start_date end_date = Value w ->
             w = (mkDate (year start_date - 1) (month start_date) (day start_date),
                  mkDate (year start_date - 1) (month end_date) (day end_date))).
Proof.
  intros Hs He Hy.
  assert (Hyear : (1 <= year start_date - 1 <= 9999)%Z).
  { apply valid_date_iff in Hs. lia. }
  pose proof (make_date_previous_year (year start_date - 1) _ _ _ Hs Hyear) as Hstart.
  pose proof (make_date_previous_year (year start_date - 1) _ _ _ He Hyear) as Hend.
  assert (Hleap : month start_date = 2%Z -> day start_date = 29%Z ->
                  is_leap (year start_date - 1) = false).
  { intros Hm Hd. apply is_leap_not_consecutive.
    apply valid_date_iff in Hs as (_ & _ & Hday).
    rewrite Hm, days_in_february, Hd in Hday.
    destruct (is_leap (year start_date)); [reflexivity | lia]. }
  unfold previous_window. cbn zeta.
  unfold make_date in *.
  destruct (valid_date (year start_date - 1) (month start_date) (day start_date)).
  - destruct (valid_date (year start_date - 1) (month end_date) (day end_date)).
    + split.
      * split; [discriminate|]. intros [[Hm Hd]|H].
        -- discriminate (proj2 Hstart (conj Hm (conj Hd (Hleap Hm Hd)))).
        -- discriminate (proj2 Hend H).
      * now intros w [= <-].
    + split; [| discriminate].
      split; [intros _; right; now apply Hend | reflexivity].
  - split; [| discriminate].
    split; [intros _; left | reflexivity].
    destruct (proj1 Hstart eq_refl) as (Hm & Hd & _). now split.
Qed.

Lemma previous_window_spec_witness :
  (previous_window (mkDate 2016 2 29) (mkDate 2016 3 31) = ValueError <->
   (2 = 2 /\ 29 = 29)%Z \/ (3 = 2 /\ 31 = 29 /\ is_leap (2016 - 1) = false)%Z) /\
  (forall w, previous_window (mkDate 2016 2 29) (mkDate 2016 3 31) = Value w ->
             w = (mkDate (2016 - 1) 2 29, mkDate (2016 - 1) 3 31)).
Proof.
  apply (previous_window_spec (mkDate 2016 2 29) (mkDate 2016 3 31));
    [reflexivity | reflexivity | cbn; lia].
Defined.

Lemma date_leb_trans (a b c : date) :
  date_leb a b = true -> date_leb b c = true -> date_leb a c = true.
Proof. apply lex_leb_trans. Qed.

Lemma in_date_window_inverted (start_date end_date : date) (t : Timestamp) :
  date_leb start_date end_date = false -> in_date_window start_date end_date t = false.
Proof.
  intros Hinv. unfold in_date_window.
  destruct (date_leb start_date (ts_date t)) eqn:E1; [| reflexivity].
  destruct (date_leb (ts_date t) end_date) eqn:E2; [| reflexivity].
  rewrite (date_leb_trans _ _ _ E1 E2) in Hinv. discriminate.
Qed.

Lemma filter_none {A : Type} (f : A -> bool) (l : list A) :
  (forall x, In x l -> f x = false) -> filter f l = [].
Proof.
  induction l as [|x l IH]; intros Hf; cbn; [reflexivity|].
  rewrite (Hf x) by now left. apply IH. intros y Hy. apply Hf. now right.
Qed.


Lemma trends_without_previous (current : DataFrame) :
  revenue_trend current [] = Ok (Fin 0) /\
  aov_trend current [] = Ok (Fin 0) /\
  orders_trend current [] = Ok (Fin 0).
Proof.
  unfold revenue_trend, aov_trend, orders_trend.
  destruct (current_aov_returns current) as [c Hc]. rewrite Hc.
  repeat split.
Qed.

(** X10: a window whose end is before its start keeps no row.  The window
    of the previous year takes its year from the start date alone, so when
    the selected window runs into a later year and its end falls, within
    the year, before its start, the previous period is empty and the three
    KPI trends are 0. *)
Theorem previous_window_across_years (start_date end_date prev_start prev_end : date)
    (current previous : DataFrame) :
  previous_window start_date end_date = Value (prev_start, prev_end) ->
  lex_leb [month start_date; day start_date] [month end_date; day end_date] = false ->
  filter_date_window prev_start prev_end previous = [] /\
  revenue_trend current (filter_date_window prev_start prev_end previous) = Ok (Fin 0) /\
  aov_trend current (filter_date_window prev_start prev_end previous) = Ok (Fin 0) /\
  orders_trend current (filter_date_window prev_start prev_end previous) = Ok (Fin 0).
Proof.
  intros Hw Hinv.
  assert (Hempty : filter_date_window prev_start prev_end previous = []).
  { apply filter_none. intros r _. apply in_date_window_inverted.
    unfold previous_window, make_date in Hw. cbn zeta in Hw.
    destruct (valid_date _ (month start_date) _); [| discriminate].
    destruct (valid_date _ (month end_date) _); [| discriminate].
    injection Hw as <- <-.
    unfold date_leb, date_fields. cbn [year month day lex_leb].
    rewrite Z.ltb_irrefl, Z.eqb_refl. exact Hinv. }
  rewrite Hempty. split; [reflexivity | apply trends_without_previous].
Qed.

Lemma previous_window_across_years_witness :
  filter_date_window (mkDate 2016 11 1) (mkDate 2016 2 28) scenario_A = [] /\
  revenue_trend scenario_B
    (filter_date_window (mkDate 2016 11 1) (mkDate 2016 2 28) scenario_A) = Ok (Fin 0) /\
  aov_trend scenario_B
    (filter_date_window (mkDate 2016 11 1) (mkDate 2016 2 28) scenario_A) = Ok (Fin 0) /\
  orders_trend scenario_B
    (filter_date_window (mkDate 2016 11 1) (mkDate 2016 2 28) scenario_A) = Ok (Fin 0).
Proof.
  apply (previous_window_across_years (mkDate 2017 11 1) (mkDate 2018 2 28));
    reflexivity.
Defined.



(** ** The review card (lines 427-435) *)

Lemma Qsum_bounds (lo hi : Q) (l : list Q) :
  Forall (fun x => lo <= x /\ x <= hi) l ->
  lo * inject_Z (Z.of_nat (List.length l)) <= Qsum l /\
  Qsum l <= hi * inject_Z (Z.of_nat (List.length l)).
Proof.
  induction 1 as [|x l [Hlo Hhi] _ [IHlo IHhi]].
  - cbn. split; ring_simplify; apply Qle_refl.
  - rewrite Qsum_cons. cbn [List.length].
    rewrite Nat2Z.inj_succ. unfold Z.succ. rewrite inject_Z_plus.
    change (inject_Z 1) with 1. split; ring_simplify; lra.
Qed.

Lemma mean_bounds (lo hi : Q) (l : list Q) :
  l <> [] ->
  Forall (fun x => lo <= x /\ x <= hi) l ->
  lo <= Qsum l / inject_Z (Z.of_nat (List.length l)) /\
  Qsum l / inject_Z (Z.of_nat (List.length l)) <= hi.
Proof.
  intros Hne Hl. destruct (Qsum_bounds lo hi l Hl) as [Hlo Hhi].
  assert (Hlen : 0 < inject_Z (Z.of_nat (List.length l))).
  { destruct l; [contradiction|]. unfold Qlt. cbn. lia. }
  split.
  - apply Qle_shift_div_l; assumption.
  - apply Qle_shift_div_r; assumption.
Qed.

Lemma round_half_even_between (lo hi : Z) (q : Q) :
  inject_Z lo <= q -> q <= inject_Z hi ->
  (lo <= round_half_even q <= hi)%Z.
Proof.
  intros Hlo Hhi.
  pose proof (round_half_even_nearest q) as Hnear.
  apply Qabs_Qle_condition in Hnear as [H1 H2].
  set (n := round_half_even q) in *.
  assert (Hn1 : inject_Z lo - (1 # 2) <= inject_Z n) by lra.
  assert (Hn2 : inject_Z n <= inject_Z hi + (1 # 2)) by lra.
  unfold Qle, Qminus, Qplus, Qopp, inject_Z in Hn1, Hn2. cbn in Hn1, Hn2. lia.
Qed.

Lemma string_length_app (s1 s2 : string) :
  String.length (s1 ++ s2) = (String.length s1 + String.length s2)%nat.
Proof.
  induction s1 as [|c s1 IH]; cbn; [reflexivity | now rewrite IH].
Qed.

Lemma repeat_string_length (s : string) (n : nat) :
  String.length (repeat_string s n) = (n * String.length s)%nat.
Proof.
  induction n as [|n IH]; cbn; [reflexivity|].
  now rewrite string_length_app, IH.
Qed.

(** X12: when no row has a review score, building the stars of the review
    card raises [ValueError].  Otherwise the card shows as many stars as
    the integer nearest to the average score, the even one when the
    average is halfway between two integers, and when every score lies
    between two integers (1 and 5, say) so does the number of stars. *)
Theorem stars_spec (df : DataFrame) :
  let scores := present (map review_score df) in
  (scores = [] -> stars df = ValueError) /\
  (scores <> [] ->
   exists (m : Q) (n : Z),
     avg_review df = Fin m /\
     m == Qsum scores / inject_Z (Z.of_nat (List.length scores)) /\
     nearest_even m n /\
     stars df = Value (repeat_string star (Z.to_nat n)) /\
     String.length (repeat_string star (Z.to_nat n)) = (3 * Z.to_nat n)%nat /\
     (forall lo hi : Z,
         (forall s, In s scores -> inject_Z lo <= s /\ s <= inject_Z hi) ->
         (lo <= n <= hi)%Z)).
Proof.
  intros scores.
  destruct (series_mean_cells (map review_score df)) as [Hnone Hsome].
  fold scores in Hnone, Hsome.
  assert (Havg : avg_review df = series_mean (map cell (map review_score df))).
  { unfold avg_review, col_review_score. now rewrite map_map. }
  split.
  - intros E. unfold stars. rewrite Havg, (Hnone E). reflexivity.
  - intros Hne. destruct (Hsome Hne) as [m [Hm Hmean]].
    exists m, (round_half_even m).
    unfold stars. rewrite Havg, Hm. cbn [int_round].
    split; [reflexivity|]. split; [exact Hmean|].
    split; [apply round_half_even_nearest_even|]. split; [reflexivity|].
    split.
    + rewrite repeat_string_length. cbn. lia.
    + intros lo hi Hrange. rewrite (round_half_even_comp _ _ Hmean).
      apply round_half_even_between;
        apply (mean_bounds (inject_Z lo) (inject_Z hi) scores Hne);
        apply Forall_forall; exact Hrange.
Qed.

Lemma stars_spec_witness :
  stars [] = ValueError /\
  exists (m : Q) (n : Z),
    avg_review scenario_B = Fin m /\
    m == Qsum [5; 4; 2; 1] / inject_Z (Z.of_nat 4) /\
    nearest_even m n /\
    stars scenario_B = Value (repeat_string star (Z.to_nat n)) /\
    String.length (repeat_string star (Z.to_nat n)) = (3 * Z.to_nat n)%nat /\
    (forall lo hi : Z,
        (forall s, In s [5; 4; 2; 1] -> inject_Z lo <= s /\ s <= inject_Z hi) ->
        (lo <= n <= hi)%Z).
Proof.
  split.
  - apply (proj1 (stars_spec [])). reflexivity.
  - apply (proj2 (stars_spec scenario_B)). discriminate.
Defined.

(** ** The delivery card (lines 413-423) *)

Lemma trend_same_finite (v : Q) :
  calculate_trend_percentage (Fin v) (Fin v) = Ok (Fin 0).
Proof.
  unfold calculate_trend_percentage. cbn [num_eqb num_sub].
  destruct (Qeq_bool v 0) eqn:E; [reflexivity|].
  rewrite num_truediv_Fin by now apply Qeq_bool_false_iff.
  cbn [bind num_mul]. do 2 f_equal. apply Qred_zero.
  rewrite !Qred_correct. unfold Qminus. rewrite Qplus_opp_r.
  unfold Qdiv. rewrite Qmult_0_l. reflexivity.
Qed.

(** X14: the colour of the delivery card.  With no row in the previous
    period the current average is compared with itself: the trend is 0
    when some row has a delivery time and NaN when none has, and the
    colour is "normal".  With rows in the previous period whose average
    delivery time is positive, the colour is "inverse" exactly when the
    current average is longer than the previous one. *)
Theorem delivery_colour_spec (current previous : DataFrame) :
  let days := present (map delivery_days current) in
  (previous = [] ->
   exists t,
     delivery_trend current previous = Ok t /\
     delivery_delta_color t = "normal"%string /\
     (days = [] -> t = NaN) /\
     (days <> [] -> t = Fin 0)) /\
  (forall c p : Q,
      previous <> [] ->
      current_delivery current = Fin c ->
      series_mean (col_delivery_days previous) = Fin p ->
      0 < p ->
      exists t,
        delivery_trend current previous = Ok (Fin t) /\
        (delivery_delta_color (Fin t) = "inverse"%string <-> p < c)).
Proof.
  intros days. split.
  - intros ->.
    destruct (series_mean_cells (map delivery_days current)) as [Hnone Hsome].
    fold days in Hnone, Hsome.
    assert (Hcur : current_delivery current
                   = series_mean (map cell (map delivery_days current))).
    { unfold current_delivery, col_delivery_days. now rewrite map_map. }
    unfold delivery_trend, previous_delivery. cbn [List.length Nat.ltb Nat.leb].
    destruct days as [|d days'] eqn:E.
    + exists NaN. rewrite Hcur, (Hnone eq_refl).
      split; [reflexivity | split; [reflexivity |]].
      split; [reflexivity | intros H; now contradiction H].
    + destruct (Hsome ltac:(discriminate)) as [m [Hm _]].
      exists (Fin 0). rewrite Hcur, Hm, trend_same_finite.
      split; [reflexivity | split; [reflexivity |]].
      split; [discriminate | reflexivity].
  - intros c p Hne Hc Hprev Hp.
    assert (Hp0 : ~ p == 0) by lra.
    destruct (trend_value c p Hp0) as [t [Ht Hmul]].
    exists t. unfold delivery_trend, previous_delivery.
    destruct previous as [|r previous']; [contradiction|].
    cbn [List.length Nat.ltb Nat.leb]. rewrite Hc, Hprev.
    split; [exact Ht|].
    unfold delivery_delta_color. cbn [num_gtb].
    destruct (Qle_bool t 0) eqn:E; cbn [negb].
    + apply Qle_bool_iff in E. split; [discriminate|]. intros Hlt. exfalso. nra.
    + split; [intros _ | reflexivity].
      assert (Ht0 : 0 < t).
      { apply Qnot_le_lt. intros H. apply Qle_bool_iff in H. congruence. }
      nra.
Qed.

Lemma delivery_colour_spec_witness :
  (exists t,
      delivery_trend scenario_B [] = Ok t /\
      delivery_delta_color t = "normal"%string /\
      (present (map delivery_days scenario_B) = [] -> t = NaN) /\
      (present (map delivery_days scenario_B) <> [] -> t = Fin 0)) /\
  (exists t,
      delivery_trend scenario_B scenario_A = Ok (Fin t) /\
      (delivery_delta_color (Fin t) = "inverse"%string <-> 2 < 16 # 3)).
Proof.
  split.
  - apply (proj1 (delivery_colour_spec scenario_B [])). reflexivity.
  - apply (proj2 (delivery_colour_spec scenario_B scenario_A) (16 # 3) 2);
      [discriminate | reflexivity | reflexivity | reflexivity].
Defined.

(** ** The order count with thousands separators (line 237) *)

Lemma read_digits_app (acc : Z) (s1 s2 : string) :
  read_digits acc (s1 ++ s2) = read_digits (read_digits acc s1) s2.
Proof.
  revert acc. induction s1 as [|c s1 IH]; intros acc; cbn; [reflexivity|].
  destruct (Ascii.eqb c ","%char); apply IH.
Qed.

Lemma digit_char_read (acc d : Z) :
  (0 <= d <= 9)%Z ->
  read_digits acc (String (digit_char d) EmptyString) = (acc * 10 + d)%Z.
Proof.
  intros Hd.
  assert (Hcases : (d = 0 \/ d = 1 \/ d = 2 \/ d = 3 \/ d = 4 \/ d = 5 \/ d = 6 \/
                    d = 7 \/ d = 8 \/ d = 9)%Z) by lia.
  assert (Hchar : Ascii.eqb (digit_char d) ","%char = false /\
                  digit_value (digit_char d) = d).
  { destruct Hcases as [->|[->|[->|[->|[->|[->|[->|[->|[->| ->]]]]]]]]];
      split; vm_compute; reflexivity. }
  destruct Hchar as [Hcomma Hvalue].
  cbn [read_digits]. now rewrite Hcomma, Hvalue.
Qed.

Lemma frac_digits_read (k : nat) (acc z : Z) :
  (0 <= z)%Z ->
  read_digits acc (frac_digits k z) = (acc * 10 ^ Z.of_nat k + z mod 10 ^ Z.of_nat k)%Z.
Proof.
  revert acc z. induction k as [|k IH]; intros acc z Hz.
  - cbn. rewrite Z.mod_1_r. lia.
  - cbn [frac_digits]. rewrite read_digits_app, IH by (apply Z.div_pos; lia).
    rewrite digit_char_read by (pose proof (Z.mod_pos_bound z 10 ltac:(lia)); lia).
    rewrite Nat2Z.inj_succ, Z.pow_succ_r by lia.
    rewrite (Z.rem_mul_r z 10 (10 ^ Z.of_nat k)) by lia.
    lia.
Qed.

Lemma lead_digits_read (n : Z) :
  (0 <= n < 1000)%Z -> read_digits 0 (lead_digits n) = n.
Proof.
  intros Hn. unfold lead_digits.
  destruct (Z.ltb_spec n 10); [| destruct (Z.ltb_spec n 100)];
    rewrite frac_digits_read by lia; cbn [Z.of_nat Z.mul];
    rewrite Z.mod_small; cbn; lia.
Qed.

Lemma group_thousands_read (fuel : nat) (n : Z) :
  (0 <= n <= Z.of_nat fuel)%Z -> read_digits 0 (group_thousands fuel n) = n.
Proof.
  revert n. induction fuel as [|fuel IH]; intros n Hn; cbn [group_thousands].
  - apply lead_digits_read. lia.
  - destruct (Z.ltb_spec n 1000); [apply lead_digits_read; lia|].
    rewrite read_digits_app, IH.
    + cbn [String.append read_digits]. change (Ascii.eqb "," ",") with true. cbn iota.
      pose proof (Z.mod_pos_bound n 1000 ltac:(lia)) as Hmod.
      rewrite frac_digits_read by lia.
      change (10 ^ Z.of_nat 3)%Z with 1000%Z.
      rewrite Z.mod_mod by lia.
      pose proof (Z.div_mod n 1000 ltac:(lia)). lia.
    + split; [apply Z.div_pos; lia|].
      assert (n / 1000 < n)%Z by (apply Z.div_lt; lia). lia.
Qed.

(** X15: the order count printed with thousands separators reads back as
    the count when the commas are skipped, and a count below 1000 is
    printed as its plain digits, without a comma or a leading zero. *)
Theorem format_thousands_read_back (n : nat) :
  read_digits 0 (format_thousands n) = Z.of_nat n /\
  ((n < 1000)%nat -> format_thousands n = lead_digits (Z.of_nat n)) /\
  ((1000 <= n)%nat ->
   format_thousands n
   = (format_thousands (n / 1000) ++ "," ++ frac_digits 3 (Z.of_nat (n mod 1000)))%string).
Proof.
  split; [| split].
  - apply group_thousands_read. lia.
  - intros Hn. unfold format_thousands. destruct n as [|n]; [reflexivity|].
    cbn [group_thousands]. destruct (Z.ltb_spec (Z.of_nat (S n)) 1000); [reflexivity | lia].
  - intros Hn. unfold format_thousands. destruct n as [|n]; [lia|].
    cbn [group_thousands]. destruct (Z.ltb_spec (Z.of_nat (S n)) 1000); [lia|].
    rewrite Nat2Z.inj_mod, Nat2Z.inj_div. change (Z.of_nat 1000) with 1000%Z.
    f_equal.
    assert (Hfuel : forall f1 f2 z, (0 <= z <= Z.of_nat f1)%Z -> (z <= Z.of_nat f2)%Z ->
                                    group_thousands f1 z = group_thousands f2 z).
    { induction f1 as [|f1 IH]; intros f2 z Hz1 Hz2.
      - assert (z = 0%Z) by lia. subst z. destruct f2; reflexivity.
      - destruct f2 as [|f2].
        + assert (z = 0%Z) by lia. subst z. reflexivity.
        + cbn [group_thousands]. destruct (Z.ltb_spec z 1000); [reflexivity|].
          f_equal. assert (z / 1000 < z)%Z by (apply Z.div_lt; lia).
          apply IH; [split; [apply Z.div_pos|]|]; lia. }
    apply Hfuel.
    + split; [apply Z.div_pos; lia|].
      assert (Z.of_nat (S n) / 1000 < Z.of_nat (S n))%Z by (apply Z.div_lt; lia). lia.
    + rewrite Nat2Z.inj_div. change (Z.of_nat 1000) with 1000%Z. lia.
Qed.

Lemma format_thousands_read_back_witness :
  format_thousands 999 = lead_digits 999 /\
  format_thousands 1234
  = (format_thousands (1234 / 1000) ++ "," ++ frac_digits 3 (Z.of_nat (1234 mod 1000)))%string.
Proof.
  split.
  - apply (proj1 (proj2 (format_thousands_read_back 999))). lia.
  - apply (proj2 (proj2 (format_thousands_read_back 1234))). lia.
Defined.

(** ** The labels of the monthly series (line 255) *)

Lemma period_decode (t : Timestamp) :
  (1 <= ts_month t <= 12)%Z ->
  period_year (to_period_M t) = ts_year t /\
  period_month (to_period_M t) = ts_month t.
Proof.
  intros Hm. unfold period_year, period_month, to_period_M.
  assert (Hdiv : (((ts_year t - 1970) * 12 + (ts_month t - 1)) / 12 = ts_year t - 1970)%Z).
  { symmetry. apply (Z.div_unique _ 12 _ (ts_month t - 1)); lia. }
  assert (Hmod : (((ts_year t - 1970) * 12 + (ts_month t - 1)) mod 12 = ts_month t - 1)%Z).
  { symmetry. apply (Z.mod_unique _ 12 (ts_year t - 1970)); lia. }
  rewrite Hdiv, Hmod. lia.
Qed.

(** X16: the label of a monthly period gives back the year and the month
    of the timestamps grouped under it, and the labels of the series are
    exactly the labels of the months in which a row was purchased. *)
Theorem current_monthly_period_spec (df : DataFrame) :
  (forall r, In r df -> (1 <= ts_month (order_purchase_timestamp r) <= 12)%Z) ->
  (forall r, In r df ->
     period_str (to_period_M (order_purchase_timestamp r))
     = (frac_digits 4 (ts_year (order_purchase_timestamp r)) ++ "-"
          ++ frac_digits 2 (ts_month (order_purchase_timestamp r)))%string) /\
  (forall label : string,
      In label (current_monthly_period df) <->
      exists r, In r df /\
                label = (frac_digits 4 (ts_year (order_purchase_timestamp r)) ++ "-"
                           ++ frac_digits 2 (ts_month (order_purchase_timestamp r)))%string) /\
  List.length (current_monthly_period df) = List.length (current_monthly df).
Proof.
  intros Hvalid.
  assert (Hlabel : forall r, In r df ->
     period_str (to_period_M (order_purchase_timestamp r))
     = (frac_digits 4 (ts_year (order_purchase_timestamp r)) ++ "-"
          ++ frac_digits 2 (ts_month (order_purchase_timestamp r)))%string).
  { intros r Hr. unfold period_str.
    destruct (period_decode (order_purchase_timestamp r) (Hvalid r Hr)) as [-> ->].
    reflexivity. }
  split; [exact Hlabel | split].
  - intros label. unfold current_monthly_period. rewrite in_map_iff. split.
    + intros [[p v] [<- Hin]]. cbn [fst].
      unfold current_monthly in Hin. apply groupby_In in Hin as [[r [Hr Hp]] _].
      injection Hp as <-. exists r. split; [exact Hr | now apply Hlabel].
    + intros [r [Hr ->]].
      exists (to_period_M (order_purchase_timestamp r),
              series_sum (col_price
                            (filter (in_group (fun r => Some (to_period_M (order_purchase_timestamp r)))
                                              (to_period_M (order_purchase_timestamp r))) df))).
      split; [now apply Hlabel|].
      unfold current_monthly.
      apply (groupby_In (fun r => Some (to_period_M (order_purchase_timestamp r)))
                        (fun g => series_sum (col_price g))).
      split; [now exists r | reflexivity].
  - unfold current_monthly_period. apply length_map.
Qed.

Lemma current_monthly_period_spec_witness :
  In "2018-02"%string (current_monthly_period scenario_A).
Proof.
  apply (proj1 (proj2 (current_monthly_period_spec scenario_A
                         ltac:(intros r [<-|[<-|[<-|[]]]]; cbn; lia)))).
  exists (sample_row "o3" 2 30 (Some "A"%string) (Some 2) (Some 3)).
  split; [cbn; tauto | reflexivity].
Defined.

(** ** The numbers that format_currency prints (lines 104-111) *)

Lemma format_currency_K (v : Q) :
  1000 <= v -> v < 1000000 ->
  format_currency (Fin v)
  = Ok ("$" ++ string_of_Z_nonneg (round_half_even (v / 1000)) ++ "K")%string.
Proof.
  intros Hlo Hhi.
  assert (Hpos : 0 <= v / 1000) by (apply Qle_shift_div_l; lra).
  unfold format_currency. cbn [num_geb].
  destruct (Qle_bool 1000000 v) eqn:E; [apply Qle_bool_iff in E; lra|].
  rewrite (proj2 (Qle_bool_iff 1000 v) Hlo).
  rewrite num_truediv_Fin by discriminate. cbn [bind].
  rewrite (format_fixed_comp 0 _ _ (Qred_correct (v / 1000))).
  rewrite format_fixed_0, (sign_str_nonneg _ Hpos).
  now rewrite (round_half_even_comp _ _ (Qabs_pos _ Hpos)).
Qed.

Lemma format_currency_small (v : Q) :
  0 <= v -> v < 1000 ->
  format_currency (Fin v) = Ok ("$" ++ string_of_Z_nonneg (round_half_even v))%string.
Proof.
  intros Hlo Hhi. unfold format_currency. cbn [num_geb].
  destruct (Qle_bool 1000000 v) eqn:E; [apply Qle_bool_iff in E; lra|].
  destruct (Qle_bool 1000 v) eqn:E'; [apply Qle_bool_iff in E'; lra|].
  rewrite format_fixed_0, (sign_str_nonneg _ Hlo).
  now rewrite (round_half_even_comp _ _ (Qabs_pos _ Hlo)).
Qed.

(** X17: between 1,000 and 1,000,000 the number printed before K lies
    between 1 and 1000, and 1000 is reached: 999,500 prints as $1000K, not
    as $1.0M.  Likewise a non-negative value below 1,000 prints a number of
    at most 1000, reached at 999.5. *)
Theorem format_currency_ranges :
  (forall v : Q,
      1000 <= v -> v < 1000000 ->
      exists k : Z,
        format_currency (Fin v) = Ok ("$" ++ string_of_Z_nonneg k ++ "K")%string /\
        (1 <= k <= 1000)%Z /\ Qabs (v / 1000 - inject_Z k) <= 1 # 2) /\
  (forall v : Q,
      0 <= v -> v < 1000 ->
      exists k : Z,
        format_currency (Fin v) = Ok ("$" ++ string_of_Z_nonneg k)%string /\
        (0 <= k <= 1000)%Z /\ Qabs (v - inject_Z k) <= 1 # 2) /\
  format_currency (Fin 999500) = Ok "$1000K"%string /\
  format_currency (Fin (1999 # 2)) = Ok "$1000"%string.
Proof.
  split; [| split; [| split; reflexivity]].
  - intros v Hlo Hhi. exists (round_half_even (v / 1000)).
    split; [now apply format_currency_K|].
    split; [| apply round_half_even_nearest].
    apply round_half_even_between.
    + change (inject_Z 1) with 1. apply Qle_shift_div_l; lra.
    + change (inject_Z 1000) with 1000. apply Qle_shift_div_r; lra.
  - intros v Hlo Hhi. exists (round_half_even v).
    split; [now apply format_currency_small|].
    split; [| apply round_half_even_nearest].
    apply round_half_even_between.
    + exact Hlo.
    + change (inject_Z 1000) with 1000. lra.
Qed.

Lemma format_currency_ranges_witness :
  exists k : Z,
    format_currency (Fin 2500) = Ok ("$" ++ string_of_Z_nonneg k ++ "K")%string /\
    (1 <= k <= 1000)%Z /\ Qabs (2500 / 1000 - inject_Z k) <= 1 # 2.
Proof.
  apply (proj1 format_currency_ranges 2500); [discriminate | reflexivity].
Defined.

(** ** The selected window (lines 151-161) *)

Lemma lex_leb_antisym (a b : list Z) :
  List.length a = List.length b ->
  lex_leb a b = true -> lex_leb b a = true -> a = b.
Proof.
  revert b. induction a as [|x a IH]; intros [|y b] Hlen; cbn; try discriminate;
    [reflexivity|].
  injection Hlen as Hlen.
  destruct (Z.ltb_spec x y), (Z.ltb_spec y x), (Z.eqb_spec x y), (Z.eqb_spec y x);
    try discriminate; try lia.
  intros H1 H2. subst y. f_equal. now apply IH.
Qed.

Lemma date_leb_antisym (a b : date) :
  date_leb a b = true -> date_leb b a = true -> a = b.
Proof.
  intros H1 H2.
  assert (E : date_fields a = date_fields b) by now apply lex_leb_antisym.
  destruct a, b. unfold date_fields in E. cbn in E. now injection E as -> -> ->.
Qed.

Lemma date_leb_refl (a : date) : date_leb a a = true.
Proof.
  destruct (lex_leb_total (date_fields a) (date_fields a)); assumption.
Qed.

(** X18: only a tuple of exactly two dates selects a window of its own:
    a single date selects that one day, and anything else, such as the
    one-element tuple of a range picked halfway, selects the first day of
    the data.  On that first day the filter keeps the orders of the
    earliest day, and there is at least one. *)
Theorem select_date_range_spec (date_range : date_input_value) (min_date : date) :
  (forall s e, date_range = DateTuple [s; e] ->
               select_date_range date_range min_date = (s, e)) /\
  (forall d, date_range = DateValue d ->
             select_date_range date_range min_date = (d, d)) /\
  ((forall s e, date_range <> DateTuple [s; e]) ->
   (forall d, date_range <> DateValue d) ->
   select_date_range date_range min_date = (min_date, min_date) /\
   forall (orders : list Timestamp) (max_date : date),
     get_date_range orders = Some (min_date, max_date) ->
     filtered_orders min_date min_date orders <> [] /\
     forall t, In t (filtered_orders min_date min_date orders) <->
               In t orders /\ ts_date t = min_date).
Proof.
  split; [| split].
  - now intros s e ->.
  - now intros d ->.
  - intros Hpair Hdate. split.
    + destruct date_range as [ds|d|]; [| now destruct (Hdate d) | reflexivity].
      destruct ds as [|s [|e [|x ds]]]; try reflexivity.
      now destruct (Hpair s e).
    + intros orders max_date Hrange.
      assert (Hin : forall t, In t (filtered_orders min_date min_date orders) <->
                              In t orders /\ ts_date t = min_date).
      { intros t. unfold filtered_orders. rewrite filter_In. unfold in_date_window.
        rewrite andb_true_iff. split.
        - intros [Ht [H1 H2]]. split; [exact Ht|]. symmetry. now apply date_leb_antisym.
        - intros [Ht <-]. rewrite date_leb_refl. auto. }
      split; [| exact Hin].
      destruct orders as [|t0 orders]; [discriminate|].
      unfold get_date_range, series_min_ts, series_max_ts in Hrange.
      destruct (fold_min_spec orders t0) as (_ & _ & Hlo).
      cbn zeta in Hlo. injection Hrange as Hmin _.
      intros Hempty.
      assert (Hmem : In (fold_left (fun m x => if ts_leb m x then m else x) orders t0)
                        (filtered_orders min_date min_date (t0 :: orders))).
      { apply Hin. split; [exact Hlo | exact Hmin]. }
      rewrite Hempty in Hmem. destruct Hmem.
Qed.

Lemma select_date_range_spec_witness :
  select_date_range (DateTuple [mkDate 2018 3 1]) (mkDate 2017 5 3)
  = (mkDate 2017 5 3, mkDate 2017 5 3) /\
  filtered_orders (mkDate 2017 5 3) (mkDate 2017 5 3)
    [mkTimestamp 2018 1 3 0 0 0; mkTimestamp 2017 5 3 1 0 0] <> [].
Proof.
  destruct (proj2 (proj2 (select_date_range_spec (DateTuple [mkDate 2018 3 1])
                                                 (mkDate 2017 5 3)))
              ltac:(discriminate) ltac:(discriminate)) as [Hsel Horders].
  split; [exact Hsel|].
  apply (proj1 (Horders [mkTimestamp 2018 1 3 0 0 0; mkTimestamp 2017 5 3 1 0 0]
                        (mkDate 2018 1 3) eq_refl)).
Defined.
